(** * Pagination, local filtering and counting in [pkg/cmd/pr/list/http.go]

    A shallow embedding of [fetchPullRequests] (and of the tail of
    [searchPullRequests] that consumes its result), together with the
    properties of the paginated accumulator: limit, deduplication, order,
    count semantics, page-size policy and error propagation.

    Conventions.
    - Go's [int] is a 64-bit two's-complement integer; it is modelled as [Z]
      and every arithmetic operation of the source is followed by [wrapInt].
    - The [requester] interface is a type class; a call may mutate the
      receiver, so [Request] returns the receiver's next state.
    - The [for] loop over pages need not terminate (the page source decides),
      so the loop takes fuel; running out of fuel is the outcome [OutOfFuel].
    - A run also yields its list of exchanges with the page source (the page
      size and cursor sent, and what came back), in order. *)

From Stdlib Require Import ZArith Lia Bool List.
From stdpp Require Import base decidable option list gmap sets strings.

Local Open Scope Z_scope.

(** ** Go's [int] *)

Module GoInt.

Definition intSize : Z := 64.
Definition minInt : Z := - 2 ^ (intSize - 1).
Definition maxInt : Z := 2 ^ (intSize - 1) - 1.

(** Two's-complement wrap-around of a mathematical integer. *)
Definition wrapInt (z : Z) : Z :=
  (z - minInt) mod 2 ^ intSize + minInt.

(** The values an [int] variable can hold. *)
Definition isInt (z : Z) : Prop := minInt <= z <= maxInt.

Definition add (a b : Z) : Z := wrapInt (a + b).
Definition sub (a b : Z) : Z := wrapInt (a - b).

(** [len(s)]: a slice's length always fits an [int]. *)
Definition len {A} (s : list A) : Z := Z.of_nat (length s).

End GoInt.
Import GoInt.

(** ** The [api] package's types, as far as this file reads them *)

Module Api.

(** Modelled from the spec: [api.AutoMergeRequest] is declared outside this
    file; the accumulator only tests a pointer to it for nil. *)
Record AutoMergeRequestT := mkAutoMergeRequest { MergeMethod : string }.

(** Modelled from the spec: [api.PullRequest] is declared outside this file;
    the accumulator inspects only the identity key [Number] and whether
    [AutoMergeRequest] is nil.  [Title] stands for the remaining payload,
    which is carried along untouched. *)
Record PullRequest := mkPullRequest {
  Number : Z;
  Title : string;
  AutoMergeRequest : option AutoMergeRequestT
}.

(** Modelled from the spec: [api.PullRequestAndTotalCount], the result set:
    the records, the total count, and the two flags this file assigns. *)
Record PullRequestAndTotalCount := mkPullRequestAndTotalCount {
  TotalCount : Z;
  PullRequests : list PullRequest;
  SearchCapped : bool;
  TotalCountIsUpperBound : bool
}.

End Api.

(** Go's [error] values; only their identity matters here. *)
Definition error := string.

(** ** [responsePage] and the [requester] interface *)

Record PageInfo_t := mkPageInfo {
  HasNextPage : bool;
  EndCursor : string
}.

Record responsePage := mkResponsePage {
  Nodes : list Api.PullRequest;
  PageInfo : PageInfo_t;
  TotalCount : Z
}.

(** What [Request] returns: [( *responsePage, error)], each possibly nil. *)
Definition response : Type := option responsePage * option error.

Class requester (R : Type) := Request : R → Z → option string → R * response.

(** One call of the page source, as seen from the accumulator. *)
Record exchange := mkExchange {
  reqLimit : Z;
  reqCursor : option string;
  reply : response
}.

(** ** Outcomes of a Go function returning [( *T, error)] *)

Inductive outcome (T : Type) :=
| Returned (res : option T) (err : option error)
| Panicked      (* nil pointer dereference *)
| OutOfFuel.    (* the model's fuel ran out: the loop is still running *)
Arguments Returned {T} res err.
Arguments Panicked {T}.
Arguments OutOfFuel {T}.

(** ** [min] *)

Definition min (a b : Z) : Z := if a <? b then a else b.

(** ** [fetchPullRequests] *)

(** The variables the loop over records updates. *)
Record acc := mkAcc {
  res : Api.PullRequestAndTotalCount;
  check : gset Z;
  removed : Z
}.

Definition setTotalCount (n : Z) (r : Api.PullRequestAndTotalCount) :=
  {| Api.TotalCount := n;
     Api.PullRequests := Api.PullRequests r;
     Api.SearchCapped := Api.SearchCapped r;
     Api.TotalCountIsUpperBound := Api.TotalCountIsUpperBound r |}.

Definition setUpperBound (b : bool) (r : Api.PullRequestAndTotalCount) :=
  {| Api.TotalCount := Api.TotalCount r;
     Api.PullRequests := Api.PullRequests r;
     Api.SearchCapped := Api.SearchCapped r;
     Api.TotalCountIsUpperBound := b |}.

Definition setSearchCapped (b : bool) (r : Api.PullRequestAndTotalCount) :=
  {| Api.TotalCount := Api.TotalCount r;
     Api.PullRequests := Api.PullRequests r;
     Api.SearchCapped := b;
     Api.TotalCountIsUpperBound := Api.TotalCountIsUpperBound r |}.

Definition appendPullRequest (pr : Api.PullRequest)
    (r : Api.PullRequestAndTotalCount) :=
  {| Api.TotalCount := Api.TotalCount r;
     Api.PullRequests := Api.PullRequests r ++ [pr];
     Api.SearchCapped := Api.SearchCapped r;
     Api.TotalCountIsUpperBound := Api.TotalCountIsUpperBound r |}.

Definition isNil {A} (p : option A) : bool :=
  match p with None => true | Some _ => false end.

(** [exists && pr.Number > 0], line 50. *)
Definition alreadySeen (chk : gset Z) (pr : Api.PullRequest) : bool :=
  bool_decide (Api.Number pr ∈ chk) && (0 <? Api.Number pr).

(** [autoMergeStatus != nil && ( *autoMergeStatus == (pr.AutoMergeRequest == nil))],
    line 55. *)
Definition filteredOut (autoMergeStatus : option bool) (pr : Api.PullRequest)
    : bool :=
  match autoMergeStatus with
  | None => false
  | Some b => Bool.eqb b (isNil (Api.AutoMergeRequest pr))
  end.

(** The body of [for _, pr := range prData.Nodes], lines 50-69.  The boolean
    is [true] when the body executes [break loop]. *)
Definition forBody (limit : Z) (autoMergeStatus : option bool)
    (pr : Api.PullRequest) (a : acc) : acc * bool :=
  if alreadySeen (check a) pr then (a, false)
  else
    let chk := {[ Api.Number pr ]} ∪ check a in
    if filteredOut autoMergeStatus pr then
      ({| res := setUpperBound true (res a);
          check := chk;
          removed := add (removed a) 1 |}, false)
    else
      let r :=
        if len (Api.PullRequests (res a)) <? limit
        then appendPullRequest pr (res a) else res a in
      ({| res := r; check := chk; removed := removed a |},
       (len (Api.PullRequests r) =? limit) && isNil autoMergeStatus).

Fixpoint forNodes (limit : Z) (autoMergeStatus : option bool)
    (nodes : list Api.PullRequest) (a : acc) : acc * bool :=
  match nodes with
  | [] => (a, false)
  | pr :: rest =>
      match forBody limit autoMergeStatus pr a with
      | (a', true) => (a', true)
      | (a', false) => forNodes limit autoMergeStatus rest a'
      end
  end.

(** Line 47: [res.TotalCount = prData.TotalCount]. *)
Definition recordTotal (prData : responsePage) (a : acc) : acc :=
  {| res := setTotalCount (TotalCount prData) (res a);
     check := check a; removed := removed a |}.

(** Line 75: [res.TotalCountIsUpperBound = false]. *)
Definition clearUpperBound (a : acc) : acc :=
  {| res := setUpperBound false (res a);
     check := check a; removed := removed a |}.

(** Lines 88-89: [res.TotalCount -= removed; return &res, nil]. *)
Definition finish (a : acc) : outcome Api.PullRequestAndTotalCount :=
  Returned
    (Some (setTotalCount (sub (Api.TotalCount (res a)) (removed a)) (res a)))
    None.

(** Line 83, taken only when [autoMergeStatus == nil]. *)
Definition nextPageLimit (limit : Z) (autoMergeStatus : option bool)
    (pageLimit : Z) (a : acc) : Z :=
  if isNil autoMergeStatus
  then min pageLimit (sub limit (len (Api.PullRequests (res a))))
  else pageLimit.

Section Fetch.
Context {R : Type} `{!requester R}.

(** The labelled [for] loop, lines 42-86. *)
Fixpoint fetchLoop (limit : Z) (autoMergeStatus : option bool)
    (fuel : nat) (r : R) (pageLimit : Z) (endCursor : option string)
    (a : acc)
    : outcome Api.PullRequestAndTotalCount * list exchange :=
  match fuel with
  | O => (OutOfFuel, [])
  | S fuel' =>
      let '(r', (prData, err)) := Request r pageLimit endCursor in
      let x := mkExchange pageLimit endCursor (prData, err) in
      match err with
      | Some e => (Returned None (Some e), [x])
      | None =>
          match prData with
          | None => (Panicked, [x])
          | Some prData =>
              match forNodes limit autoMergeStatus (Nodes prData)
                             (recordTotal prData a) with
              | (a1, true) => (finish a1, [x])
              | (a1, false) =>
                  if negb (HasNextPage (PageInfo prData)) then
                    (finish (clearUpperBound a1), [x])
                  else if len (Api.PullRequests (res a1)) =? limit then
                    (finish a1, [x])
                  else
                    let '(o, xs) :=
                      fetchLoop limit autoMergeStatus fuel' r'
                        (nextPageLimit limit autoMergeStatus pageLimit a1)
                        (Some (EndCursor (PageInfo prData))) a1 in
                    (o, x :: xs)
              end
          end
      end
  end.

(** Lines 31-35: the first page size. *)
Definition initialPageLimit (limit : Z) (autoMergeStatus : option bool) : Z :=
  if isNil autoMergeStatus then min 100 limit else 100.

(** Lines 37-39: [res], [check] and [removed] before the loop. *)
Definition initialAcc : acc :=
  {| res := {| Api.TotalCount := -1; Api.PullRequests := [];
               Api.SearchCapped := false;
               Api.TotalCountIsUpperBound := false |};
     check := ∅;
     removed := 0 |}.

Definition fetchPullRequests (fuel : nat) (r : R) (limit : Z)
    (autoMergeStatus : option bool)
    : outcome Api.PullRequestAndTotalCount * list exchange :=
  fetchLoop limit autoMergeStatus fuel r
            (initialPageLimit limit autoMergeStatus) None initialAcc.

(** Lines 270-272 of [searchPullRequests], once its requester [r] is built:
    [res, err := fetchPullRequests(r, limit, filters.AutoMergeStatus)],
    [res.SearchCapped = limit > 1000], [return res, err].
    The assignment dereferences [res]. *)
Definition searchPullRequests (fuel : nat) (r : R) (limit : Z)
    (autoMergeStatus : option bool)
    : outcome Api.PullRequestAndTotalCount :=
  match fst (fetchPullRequests fuel r limit autoMergeStatus) with
  | Returned (Some res) err =>
      Returned (Some (setSearchCapped (1000 <? limit) res)) err
  | Returned None _ => Panicked
  | Panicked => Panicked
  | OutOfFuel => OutOfFuel
  end.

(** Line 200 of [listPullRequests]: the result is handed on as it is. *)
Definition listPullRequests (fuel : nat) (r : R) (limit : Z)
    (autoMergeStatus : option bool)
    : outcome Api.PullRequestAndTotalCount :=
  fst (fetchPullRequests fuel r limit autoMergeStatus).

End Fetch.

(** ** A scripted page source

    A requester that replays a fixed list of replies, one per call, and fails
    once the script is exhausted. *)

Definition script := list response.

#[export] Instance scripted_requester : requester script :=
  λ s _ _,
    match s with
    | [] => ([], (None, Some "script exhausted"%string))
    | x :: s' => (s', x)
    end.

Definition mkPR (n : Z) (title : string) (auto : bool) : Api.PullRequest :=
  {| Api.Number := n; Api.Title := title;
     Api.AutoMergeRequest :=
       if auto then Some (Api.mkAutoMergeRequest "MERGE") else None |}.

Definition page (nodes : list Api.PullRequest) (more : bool) (cursor : string)
    (total : Z) : response :=
  (Some {| Nodes := nodes;
           PageInfo := {| HasNextPage := more; EndCursor := cursor |};
           TotalCount := total |}, None).

(** ** The result set in the spec's words

    A record is a duplicate when its identity key is positive and an earlier
    record carries the same key.  The records seen first are the others, in
    the order of arrival; the inclusion predicate then splits them into the
    kept and the removed ones, and the output is the first [limit] kept. *)

Definition duplicate (earlier : list Api.PullRequest) (pr : Api.PullRequest)
    : bool :=
  (0 <? Api.Number pr) && bool_decide (Api.Number pr ∈ Api.Number <$> earlier).

Fixpoint firstSeenFrom (earlier l : list Api.PullRequest)
    : list Api.PullRequest :=
  match l with
  | [] => []
  | pr :: l' =>
      (if duplicate earlier pr then [] else [pr])
        ++ firstSeenFrom (earlier ++ [pr]) l'
  end.

Definition firstSeen (l : list Api.PullRequest) := firstSeenFrom [] l.

Definition keptRecords (autoMergeStatus : option bool)
    (l : list Api.PullRequest) : list Api.PullRequest :=
  List.filter (λ pr, negb (filteredOut autoMergeStatus pr)) (firstSeen l).

Definition removedRecords (autoMergeStatus : option bool)
    (l : list Api.PullRequest) : list Api.PullRequest :=
  List.filter (filteredOut autoMergeStatus) (firstSeen l).

Definition expectedOutput (limit : Z) (autoMergeStatus : option bool)
    (l : list Api.PullRequest) : list Api.PullRequest :=
  take (Z.to_nat limit) (keptRecords autoMergeStatus l).

(** ** Reading a run's exchanges *)

(** The page an exchange delivered, when the call did not fail. *)
Definition pageOf (x : exchange) : option responsePage :=
  match reply x with
  | (Some p, None) => Some p
  | _ => None
  end.

Definition errorOf (x : exchange) : option error := snd (reply x).

Definition pagesOf (xs : list exchange) : list responsePage :=
  omap pageOf xs.

Definition nodesOf (xs : list exchange) : list Api.PullRequest :=
  concat (Nodes <$> pagesOf xs).

(** The positive keys of a list of records, and the test for an unset
    (zero or negative) key. *)
Definition positiveKeys (l : list Api.PullRequest) : list Z :=
  List.filter (λ n, 0 <? n) (Api.Number <$> l).

Definition unsetKey (pr : Api.PullRequest) : bool := Api.Number pr <=? 0.

(** ** The invariant of the loop over records

    [prior] is the list of records the loop has gone through so far, over all
    pages.  The dedup set holds their keys, the output is the first [limit]
    kept records, [removed] counts the removed ones, and the upper-bound flag
    is set exactly when there is one. *)

Record accInv (limit : Z) (autoMergeStatus : option bool)
    (prior : list Api.PullRequest) (a : acc) : Prop := {
  inv_check : check a = list_to_set (Api.Number <$> prior);
  inv_output :
    Api.PullRequests (res a) = expectedOutput limit autoMergeStatus prior;
  inv_removed :
    removed a = wrapInt (len (removedRecords autoMergeStatus prior));
  inv_flag :
    Api.TotalCountIsUpperBound (res a)
    = (0 <? len (removedRecords autoMergeStatus prior));
  inv_capped : Api.SearchCapped (res a) = false
}.

(** What holds of the accumulator when a page is done, also after
    [break loop], where [all] includes the records left unprocessed. *)
Record resultInv (limit : Z) (autoMergeStatus : option bool)
    (all : list Api.PullRequest) (a : acc) : Prop := {
  rinv_output :
    Api.PullRequests (res a) = expectedOutput limit autoMergeStatus all;
  rinv_removed :
    removed a = wrapInt (len (removedRecords autoMergeStatus all));
  rinv_flag :
    Api.TotalCountIsUpperBound (res a)
    = (0 <? len (removedRecords autoMergeStatus all));
  rinv_capped : Api.SearchCapped (res a) = false
}.

(** What a successful run returns, in terms of the pages it fetched. *)
Record runSpec (limit : Z) (autoMergeStatus : option bool)
    (prior : list Api.PullRequest) (tr : list exchange)
    (out : Api.PullRequestAndTotalCount) (final : responsePage) : Prop := {
  run_delivered : Forall (λ x, is_Some (pageOf x)) tr;
  run_last : last (pagesOf tr) = Some final;
  run_output :
    Api.PullRequests out
    = expectedOutput limit autoMergeStatus (prior ++ nodesOf tr);
  run_total :
    Api.TotalCount out
    = sub (TotalCount final)
          (len (removedRecords autoMergeStatus (prior ++ nodesOf tr)));
  run_flag :
    Api.TotalCountIsUpperBound out
    = HasNextPage (PageInfo final)
      && (0 <? len (removedRecords autoMergeStatus (prior ++ nodesOf tr)));
  run_capped : Api.SearchCapped out = false;
  run_stop :
    autoMergeStatus ≠ None →
    HasNextPage (PageInfo final) = false
    ∨ len (Api.PullRequests out) = limit
}.

(** ** The two properties that do not hold as the spec words them *)

(** The upper-bound property as the spec words it: a removal forces the flag
    for the rest of the invocation. *)
Definition UpperBoundAsStated : Prop :=
  ∀ (R : Type) `(!requester R) fuel (r : R) limit b out err tr,
    fetchPullRequests fuel r limit (Some b) = (Returned (Some out) err, tr) →
    removedRecords (Some b) (nodesOf tr) ≠ [] →
    Api.TotalCountIsUpperBound out = true.

(** The dedup property as the spec words it: a key other than the unset value
    [0] occurs at most once in the output. *)
Definition DedupAsStated : Prop :=
  ∀ (R : Type) `(!requester R) fuel (r : R) limit autoMergeStatus out err tr,
    fetchPullRequests fuel r limit autoMergeStatus
    = (Returned (Some out) err, tr) →
    NoDup (List.filter (λ n, negb (n =? 0))
                       (Api.Number <$> Api.PullRequests out)).

(** ** Scripts and states for the examples *)

(** One page, no more pages; its only record has no auto-merge request. *)
Definition lastPageScript : script :=
  [page [mkPR 7 "a" false] false "" 1].

(** A first page of many: an auto-merge record, then a plain one. *)
Definition firstPageScript : script :=
  [page [mkPR 1 "a" true; mkPR 2 "b" false] true "c1" 9].

(** Two pages with a repeated key, then a failing call. *)
Definition failingScript : script :=
  [page [mkPR 1 "a" false; mkPR 2 "b" false] true "c1" 9;
   page [mkPR 2 "b" false; mkPR 3 "c" true] true "c2" 9;
   (None, Some "boom"%string)].

(** Two pages, the second one the last; key 2 comes three times. *)
Definition twoPageScript : script :=
  [page [mkPR 1 "a" true; mkPR 2 "b" false; mkPR 2 "b" false] true "c1" 9;
   page [mkPR 2 "b" true; mkPR 3 "c" false; mkPR 4 "d" true] false "" 9].

(** A page of five records with more pages announced, and the accumulator
    after its second and after its third record when the limit is 3 and there
    is no predicate. *)
Definition fivePage : responsePage :=
  {| Nodes := [mkPR 1 "a" false; mkPR 2 "b" false; mkPR 3 "c" false;
               mkPR 4 "d" false; mkPR 5 "e" false];
     PageInfo := {| HasNextPage := true; EndCursor := "c1" |};
     TotalCount := 12 |}.

Definition fiveScript : script := [(Some fivePage, None)].

Definition fiveAfterSecond : acc :=
  fst (forNodes 3 None [mkPR 1 "a" false; mkPR 2 "b" false]
                (recordTotal fivePage initialAcc)).

Definition fiveAfterThird : acc :=
  fst (forBody 3 None (mkPR 3 "c" false) fiveAfterSecond).

(** One page carrying the key [-1] twice. *)
Definition negativeKeyScript : script :=
  [page [mkPR (-1) "a" false; mkPR (-1) "b" false] false "" 2].

(** One page with the unset key twice and the key [5] twice. *)
Definition unsetKeyScript : script :=
  [page [mkPR 0 "x" false; mkPR 0 "y" false; mkPR 5 "z" false; mkPR 5 "z" false]
        false "" 4].

(** ** The rest of the file: filters, the two requesters, and the callers *)

(** Modelled from the spec: [prShared.FilterOptions] is declared outside this
    file; these are the fields this file reads or assigns. *)
Record FilterOptions := mkFilterOptions {
  Assignee : string;
  Author : string;
  BaseBranch : string;
  Draft : option bool;
  Entity : string;
  Fields : list string;
  HeadBranch : string;
  Labels : list string;
  Repo : string;
  Search : string;
  State : string;
  AutoMergeStatus : option bool
}.

Definition setFields (fields : list string) (f : FilterOptions) : FilterOptions :=
  {| Assignee := Assignee f; Author := Author f; BaseBranch := BaseBranch f;
     Draft := Draft f; Entity := Entity f; Fields := fields;
     HeadBranch := HeadBranch f; Labels := Labels f; Repo := Repo f;
     Search := Search f; State := State f;
     AutoMergeStatus := AutoMergeStatus f |}.

Definition setRepoEntity (repo entity : string) (f : FilterOptions)
    : FilterOptions :=
  {| Assignee := Assignee f; Author := Author f; BaseBranch := BaseBranch f;
     Draft := Draft f; Entity := entity; Fields := Fields f;
     HeadBranch := HeadBranch f; Labels := Labels f; Repo := repo;
     Search := Search f; State := State f;
     AutoMergeStatus := AutoMergeStatus f |}.

Definition nonEmpty (s : string) : bool := negb (String.eqb s "").

(** Lines 13-15. *)
Definition shouldUseSearch (filters : FilterOptions) : bool :=
  negb (isNil (Draft filters))
  || nonEmpty (Author filters)
  || nonEmpty (Assignee filters)
  || nonEmpty (Search filters)
  || (0 <? len (Labels filters)).

(** The values this file stores in a [map[string]interface{}] of GraphQL
    variables: an [int], a [string], a [[]string], and the address of the
    non-nil cursor. *)
Inductive variable :=
| VInt (n : Z)
| VString (s : string)
| VStrings (l : list string)
| VCursor (endCursor : string).

(** Lines 99-103. *)
Record listResponse_Repository := mkListResponseRepository {
  PullRequests : responsePage
}.

Record listResponse := mkListResponse {
  Repository : listResponse_Repository
}.

(** Lines 203-212. *)
Module SearchResponse.
Record Search_t := mkSearch {
  Nodes : list Api.PullRequest;
  PageInfo : PageInfo_t;
  IssueCount : Z
}.
Record t := mk { Search : Search_t }.
End SearchResponse.
Abbreviation searchResponse := SearchResponse.t.

(** Modelled from the spec: [api.Client.GraphQL] is declared outside this
    file.  A call sends a query and its variables to a host and decodes the
    answer into [data]; it may change the client and may fail. *)
Class graphQLClient (C D : Type) :=
  GraphQL : C → string → string → gmap string variable → C * (D * option error).

(** Lines 113-116 and 222-225, the same in both requesters. *)
Definition requestVariables (limit : Z) (endCursor : option string)
    (variables : gmap string variable) : gmap string variable :=
  let variables := <["limit"%string := VInt limit]> variables in
  match endCursor with
  | Some c => <["endCursor"%string := VCursor c]> variables
  | None => variables
  end.

(** Lines 105-123. *)
Module listRequester.
Record t (C : Type) := mk {
  client : C;
  hostname : string;
  variables : gmap string variable;
  query : string
}.
Arguments mk {C} client hostname variables query.
Arguments client {C} _.
Arguments hostname {C} _.
Arguments variables {C} _.
Arguments query {C} _.

Definition Request {C : Type} `{!graphQLClient C listResponse} (r : t C)
    (limit : Z) (endCursor : option string) : t C * response :=
  let vars := requestVariables limit endCursor (variables r) in
  let '(c, (data, err)) := GraphQL (client r) (hostname r) (query r) vars in
  let r' := mk c (hostname r) vars (query r) in
  match err with
  | Some e => (r', (None, Some e))
  | None => (r', (Some (PullRequests (Repository data)), None))
  end.
End listRequester.

#[export] Instance listRequester_requester {C : Type}
    `{!graphQLClient C listResponse} : requester (listRequester.t C) :=
  listRequester.Request.

(** Lines 214-237. *)
Module searchRequester.
Record t (C : Type) := mk {
  client : C;
  hostname : string;
  variables : gmap string variable;
  query : string
}.
Arguments mk {C} client hostname variables query.
Arguments client {C} _.
Arguments hostname {C} _.
Arguments variables {C} _.
Arguments query {C} _.

Definition Request {C : Type} `{!graphQLClient C searchResponse} (r : t C)
    (limit : Z) (endCursor : option string) : t C * response :=
  let vars := requestVariables limit endCursor (variables r) in
  let '(c, (data, err)) := GraphQL (client r) (hostname r) (query r) vars in
  let r' := mk c (hostname r) vars (query r) in
  match err with
  | Some e => (r', (None, Some e))
  | None =>
      let pullRequests :=
        {| Nodes := SearchResponse.Nodes (SearchResponse.Search data);
           PageInfo := SearchResponse.PageInfo (SearchResponse.Search data);
           TotalCount := SearchResponse.IssueCount (SearchResponse.Search data)
        |} in
      (r', (Some pullRequests, None))
  end.
End searchRequester.

#[export] Instance searchRequester_requester {C : Type}
    `{!graphQLClient C searchResponse} : requester (searchRequester.t C) :=
  searchRequester.Request.

(** Modelled from the spec: [ghrepo.Interface] is declared outside this file;
    the three methods this file calls. *)
Record Repo_t := mkRepo {
  RepoOwner : string;
  RepoName : string;
  RepoHost : string
}.

(** The functions of other packages that the two callers use, taken as
    given: [api.NewClientFromHTTP], [api.PullRequestGraphQL],
    [prShared.SearchQueryBuild], [ghrepo.FullName], and the string set of
    [pkg/set]. *)
Class imports (H C StringSet : Type) := {
  NewClientFromHTTP : H → C;
  PullRequestGraphQL : list string → string;
  SearchQueryBuild : FilterOptions → string;
  FullName : Repo_t → string;
  NewStringSet : StringSet;
  AddValues : StringSet → list string → StringSet;
  Add : StringSet → string → StringSet;
  ToSlice : StringSet → list string
}.

(** [fmt.Sprintf("fragment pr on PullRequest{%s}", fields)]. *)
Definition fragmentOf (fields : string) : string :=
  ("fragment pr on PullRequest{" ++ fields ++ "}")%string.

(** The raw string of lines 138-167. *)
Definition pullRequestListQuery : string := "
		query PullRequestList(
			$owner: String!,
			$repo: String!,
			$limit: Int!,
			$endCursor: String,
			$baseBranch: String,
			$headBranch: String,
			$state: [PullRequestState!] = OPEN
		) {
			repository(owner: $owner, name: $repo) {
				pullRequests(
					states: $state,
					baseRefName: $baseBranch,
					headRefName: $headBranch,
					first: $limit,
					after: $endCursor,
					orderBy: {field: CREATED_AT, direction: DESC}
				) {
					totalCount
					nodes {
						...pr
					}
					pageInfo {
						hasNextPage
						endCursor
					}
				}
			}
		}".

(** The raw string of lines 241-257. *)
Definition pullRequestSearchQuery : string := "
		query PullRequestSearch(
			$q: String!,
			$limit: Int!,
			$endCursor: String,
		) {
			search(query: $q, type: ISSUE, first: $limit, after: $endCursor) {
				issueCount
				nodes {
					...pr
				}
				pageInfo {
					hasNextPage
					endCursor
				}
			}
		}".

(** The [switch] of lines 174-185; [None] is its [default] branch. *)
Definition stateVariable (state : string) : option (list string) :=
  if String.eqb state "open" then Some ["OPEN"%string]
  else if String.eqb state "closed" then Some ["CLOSED"; "MERGED"]%string
  else if String.eqb state "merged" then Some ["MERGED"%string]
  else if String.eqb state "all" then Some ["OPEN"; "CLOSED"; "MERGED"]%string
  else None.

(** Lines 187-192: a branch name is sent only when it is not empty. *)
Definition branchVariables (filters : FilterOptions)
    (variables : gmap string variable) : gmap string variable :=
  let variables :=
    if nonEmpty (BaseBranch filters)
    then <["baseBranch"%string := VString (BaseBranch filters)]> variables
    else variables in
  if nonEmpty (HeadBranch filters)
  then <["headBranch"%string := VString (HeadBranch filters)]> variables
  else variables.

Module Cmd.
Section Callers.
Context {H C StringSet : Type} `{!imports H C StringSet}.
Context `{!graphQLClient C listResponse} `{!graphQLClient C searchResponse}.

(** The whole of [searchPullRequests], lines 239-273; its last three lines
    are [searchPullRequests] above. *)
Definition searchPullRequests (fuel : nat) (httpClient : H) (repo : Repo_t)
    (filters : FilterOptions) (limit : Z)
    : outcome Api.PullRequestAndTotalCount * list exchange :=
  let fragment := fragmentOf (PullRequestGraphQL (Fields filters)) in
  let query := (fragment ++ pullRequestSearchQuery)%string in
  let filters := setRepoEntity (FullName repo) "pr" filters in
  let q := SearchQueryBuild filters in
  let variables : gmap string variable := {[ "q"%string := VString q ]} in
  let r := searchRequester.mk (NewClientFromHTTP httpClient) (RepoHost repo)
                              variables query in
  (searchPullRequests fuel r limit (AutoMergeStatus filters),
   snd (fetchPullRequests fuel r limit (AutoMergeStatus filters))).

(** Lines 126-131: the requested fields, with [autoMergeRequest] added when
    the auto-merge filter is set. *)
Definition withAutoMergeField (filters : FilterOptions) : FilterOptions :=
  let fields := AddValues NewStringSet (Fields filters) in
  if isNil (AutoMergeStatus filters) then filters
  else setFields (ToSlice (Add fields "autoMergeRequest")) filters.

(** The whole of [listPullRequests], lines 125-201. *)
Definition listPullRequests (fuel : nat) (httpClient : H) (repo : Repo_t)
    (filters : FilterOptions) (limit : Z)
    : outcome Api.PullRequestAndTotalCount * list exchange :=
  let filters := withAutoMergeField filters in
  if shouldUseSearch filters then
    searchPullRequests fuel httpClient repo filters limit
  else
    let fragment := fragmentOf (PullRequestGraphQL (Fields filters)) in
    let query := (fragment ++ pullRequestListQuery)%string in
    let variables : gmap string variable :=
      {[ "owner"%string := VString (RepoOwner repo);
         "repo"%string := VString (RepoName repo) ]} in
    match stateVariable (State filters) with
    | None =>
        (Returned None (Some ("invalid state: " ++ State filters)%string), [])
    | Some states =>
        let variables := <["state"%string := VStrings states]> variables in
        let variables := branchVariables filters variables in
        let r := listRequester.mk (NewClientFromHTTP httpClient)
                                  (RepoHost repo) variables query in
        fetchPullRequests fuel r limit (AutoMergeStatus filters)
    end.

End Callers.
End Cmd.

(** A page, then a call that returns neither a page nor an error. *)
Definition nilReplyScript : script :=
  [page [mkPR 1 "a" false] true "c1" 9; (None, None)].

(** A client for the examples: it answers from a list of canned pages, one
    per call, whatever it is asked, and fails once the list is used up. *)
Definition cannedClient := list (responsePage * option error).

Definition emptyPage : responsePage :=
  {| Nodes := [];
     PageInfo := {| HasNextPage := false; EndCursor := "" |};
     TotalCount := 0 |}.

Definition asSearchResponse (p : responsePage) : searchResponse :=
  SearchResponse.mk
    (SearchResponse.mkSearch (Nodes p) (PageInfo p) (TotalCount p)).

#[export] Instance cannedClient_list : graphQLClient cannedClient listResponse :=
  λ c _ _ _,
    match c with
    | [] => ([], (mkListResponse (mkListResponseRepository emptyPage),
                  Some "no answer"%string))
    | (p, e) :: c' => (c', (mkListResponse (mkListResponseRepository p), e))
    end.

#[export] Instance cannedClient_search
    : graphQLClient cannedClient searchResponse :=
  λ c _ _ _,
    match c with
    | [] => ([], (asSearchResponse emptyPage, Some "no answer"%string))
    | (p, e) :: c' => (c', (asSearchResponse p, e))
    end.

(** Stand-ins for the imported functions, for the examples. *)
#[export] Instance demoImports : imports cannedClient cannedClient (list string) :=
  {| NewClientFromHTTP := id;
     PullRequestGraphQL := String.concat ",";
     SearchQueryBuild := λ f, (Repo f ++ " " ++ Search f)%string;
     FullName := λ r, (RepoOwner r ++ "/" ++ RepoName r)%string;
     NewStringSet := [];
     AddValues := λ s l, s ++ l;
     Add := λ s x, s ++ [x];
     ToSlice := id |}.

Definition demoRepo : Repo_t :=
  {| RepoOwner := "cli"; RepoName := "cli"; RepoHost := "github.com" |}.

Definition demoFilters (state author : string) (status : option bool)
    : FilterOptions :=
  {| Assignee := ""; Author := author; BaseBranch := "trunk"; Draft := None;
     Entity := ""; Fields := ["number"; "title"]%string; HeadBranch := "";
     Labels := []; Repo := ""; Search := ""; State := state;
     AutoMergeStatus := status |}.

Definition demoClient : cannedClient :=
  [({| Nodes := [mkPR 1 "a" true; mkPR 2 "b" false];
       PageInfo := {| HasNextPage := true; EndCursor := "c1" |};
       TotalCount := 3 |}, None);
   ({| Nodes := [mkPR 3 "c" true];
       PageInfo := {| HasNextPage := false; EndCursor := "" |};
       TotalCount := 3 |}, None)].

Definition demoListRequester : listRequester.t cannedClient :=
  listRequester.mk demoClient "github.com"
    {[ "owner"%string := VString "cli"; "repo"%string := VString "cli" ]}
    "query".

(** ** A first run *)

Example scenario1 :
  fst (fetchPullRequests 3
         [page [mkPR 1 "a" false; mkPR 2 "b" false; mkPR 3 "c" false] false "" 3]
         5 None)
  = Returned (Some {| Api.TotalCount := 3;
                      Api.PullRequests :=
                        [mkPR 1 "a" false; mkPR 2 "b" false; mkPR 3 "c" false];
                      Api.SearchCapped := false;
                      Api.TotalCountIsUpperBound := false |})
             None.
Proof. vm_compute. reflexivity. Qed.

(** Limit 3 and a page of five records: the loop stops inside the page. *)
Example scenario2 :
  fst (fetchPullRequests 1
         [page [mkPR 1 "a" false; mkPR 2 "b" false; mkPR 3 "c" false;
                mkPR 4 "d" false; mkPR 5 "e" false] true "c1" 12]
         3 None)
  = Returned (Some {| Api.TotalCount := 12;
                      Api.PullRequests :=
                        [mkPR 1 "a" false; mkPR 2 "b" false; mkPR 3 "c" false];
                      Api.SearchCapped := false;
                      Api.TotalCountIsUpperBound := false |})
             None.
Proof. vm_compute. reflexivity. Qed.

(** A key that comes again on the second page is dropped there, and is not
    counted as removed. *)
Example scenario4 :
  fst (fetchPullRequests 2 twoPageScript 5 (Some false))
  = Returned (Some {| Api.TotalCount := 7;
                      Api.PullRequests := [mkPR 2 "b" false; mkPR 3 "c" false];
                      Api.SearchCapped := false;
                      Api.TotalCountIsUpperBound := false |})
             None.
Proof. vm_compute. reflexivity. Qed.

(** ** Arithmetic of [int] *)

Section IntFacts.

Lemma wrapInt_small z : isInt z → wrapInt z = z.
Proof.
  unfold isInt, wrapInt, minInt, maxInt, intSize. intros Hz.
  rewrite Z.mod_small; lia.
Qed.

Lemma wrapInt_isInt z : isInt (wrapInt z).
Proof.
  unfold isInt, wrapInt, minInt, maxInt, intSize.
  pose proof (Z.mod_pos_bound (z - - 2 ^ (64 - 1)) (2 ^ 64) ltac:(lia)).
  lia.
Qed.

Lemma wrapInt_sub_wrap a b : wrapInt (a - wrapInt b) = wrapInt (a - b).
Proof.
  unfold wrapInt. f_equal.
  replace (a - ((b - minInt) mod 2 ^ intSize + minInt) - minInt)
    with ((a - minInt - minInt) - (b - minInt) mod 2 ^ intSize) by ring.
  rewrite Zminus_mod_idemp_r. f_equal. ring.
Qed.

Lemma wrapInt_add_wrap a b : wrapInt (wrapInt a + b) = wrapInt (a + b).
Proof.
  unfold wrapInt. f_equal.
  replace ((a - minInt) mod 2 ^ intSize + minInt + b - minInt)
    with ((a - minInt) mod 2 ^ intSize + b) by ring.
  rewrite Zplus_mod_idemp_l. f_equal. ring.
Qed.

Lemma min_is_Zmin a b : min a b = Z.min a b.
Proof. unfold min. destruct (Z.ltb_spec a b); lia. Qed.

Lemma isInt_100 : isInt 100.
Proof. unfold isInt, minInt, maxInt, intSize. lia. Qed.

End IntFacts.

(** ** Facts about the spec-level functions *)

Section SpecFacts.
Implicit Types (l prior earlier : list Api.PullRequest) (pr : Api.PullRequest).

Lemma firstSeenFrom_app earlier l1 l2 :
  firstSeenFrom earlier (l1 ++ l2)
  = firstSeenFrom earlier l1 ++ firstSeenFrom (earlier ++ l1) l2.
Proof.
  revert earlier. induction l1 as [|pr l1 IH]; intros earlier; simpl.
  - by rewrite app_nil_r.
  - rewrite IH, <- !app_assoc. done.
Qed.

Lemma firstSeen_snoc prior pr :
  firstSeen (prior ++ [pr])
  = firstSeen prior ++ (if duplicate prior pr then [] else [pr]).
Proof.
  unfold firstSeen. rewrite firstSeenFrom_app. simpl.
  by rewrite app_nil_r.
Qed.

Lemma firstSeen_app l1 l2 :
  firstSeen (l1 ++ l2) = firstSeen l1 ++ firstSeenFrom l1 l2.
Proof. unfold firstSeen. by rewrite firstSeenFrom_app. Qed.

Lemma keptRecords_app s l1 l2 :
  keptRecords s (l1 ++ l2)
  = keptRecords s l1
    ++ List.filter (λ pr, negb (filteredOut s pr)) (firstSeenFrom l1 l2).
Proof. unfold keptRecords. by rewrite firstSeen_app, List.filter_app. Qed.

Lemma removedRecords_app s l1 l2 :
  removedRecords s (l1 ++ l2)
  = removedRecords s l1 ++ List.filter (filteredOut s) (firstSeenFrom l1 l2).
Proof. unfold removedRecords. by rewrite firstSeen_app, List.filter_app. Qed.

Lemma removedRecords_nil_status l : removedRecords None l = [].
Proof.
  unfold removedRecords. induction (firstSeen l) as [|x xs IH]; simpl; done.
Qed.

Lemma keptRecords_nil_status l : keptRecords None l = firstSeen l.
Proof.
  unfold keptRecords. induction (firstSeen l) as [|x xs IH]; [done|].
  change (x :: List.filter (λ pr, negb (filteredOut None pr)) xs = x :: xs).
  by rewrite IH.
Qed.

(** Appending one kept record to the first [limit] of them, as lines 64-66 do. *)
Lemma take_snoc_limit {A} (limit : Z) (l : list A) (x : A) :
  take (Z.to_nat limit) (l ++ [x])
  = if len (take (Z.to_nat limit) l) <? limit
    then take (Z.to_nat limit) l ++ [x]
    else take (Z.to_nat limit) l.
Proof.
  unfold len. rewrite length_take.
  destruct (Z.ltb_spec (Z.of_nat (Z.to_nat limit `min` length l)) limit) as [Hlt|Hge].
  - assert (length l < Z.to_nat limit)%nat by lia.
    rewrite !take_ge by (rewrite ?length_app; simpl; lia). done.
  - assert (Z.to_nat limit ≤ length l)%nat by lia.
    rewrite take_app_le by lia. done.
Qed.

Lemma len_expectedOutput_le limit s l :
  0 <= limit → len (expectedOutput limit s l) <= limit.
Proof.
  intros Hl. unfold expectedOutput, len. rewrite length_take. lia.
Qed.

Lemma len_expectedOutput_neg limit s l :
  limit < 0 → len (expectedOutput limit s l) = 0.
Proof.
  intros Hl. unfold expectedOutput, len.
  replace (Z.to_nat limit) with 0%nat by lia. done.
Qed.

(** Once the output holds [limit] records, later records do not change it. *)
Lemma expectedOutput_full limit s l1 l2 :
  len (expectedOutput limit s l1) = limit →
  expectedOutput limit s (l1 ++ l2) = expectedOutput limit s l1.
Proof.
  unfold expectedOutput, len. rewrite length_take. intros Hfull.
  rewrite keptRecords_app. apply take_app_le. lia.
Qed.

End SpecFacts.

Section Invariant.
Variable limit : Z.
Variable autoMergeStatus : option bool.
Implicit Types (prior nodes : list Api.PullRequest) (pr : Api.PullRequest).
Implicit Types (a : acc).

Lemma accInv_initial : accInv limit autoMergeStatus [] initialAcc.
Proof.
  split; simpl; try done.
  unfold expectedOutput, keptRecords. simpl. by rewrite take_nil.
Qed.

Lemma accInv_resultInv prior a :
  accInv limit autoMergeStatus prior a →
  resultInv limit autoMergeStatus prior a.
Proof. intros []. by split. Qed.

Lemma accInv_recordTotal prior a prData :
  accInv limit autoMergeStatus prior a →
  accInv limit autoMergeStatus prior (recordTotal prData a).
Proof. intros []. by split. Qed.

Lemma alreadySeen_duplicate prior a pr :
  check a = list_to_set (Api.Number <$> prior) →
  alreadySeen (check a) pr = duplicate prior pr.
Proof.
  intros ->. unfold alreadySeen, duplicate. rewrite andb_comm. f_equal.
  apply bool_decide_ext. by rewrite elem_of_list_to_set.
Qed.

Lemma duplicate_check prior pr :
  duplicate prior pr = true →
  list_to_set (Api.Number <$> (prior ++ [pr]))
  = (list_to_set (Api.Number <$> prior) : gset Z).
Proof.
  unfold duplicate. intros [_ Hin%bool_decide_eq_true]%andb_true_iff.
  rewrite fmap_app, list_to_set_app_L. simpl.
  rewrite union_empty_r_L, (comm_L (∪)).
  apply subseteq_union_1_L, singleton_subseteq_l.
  by apply elem_of_list_to_set.
Qed.

Lemma fresh_check prior pr :
  list_to_set (Api.Number <$> (prior ++ [pr]))
  = ({[ Api.Number pr ]} ∪ list_to_set (Api.Number <$> prior) : gset Z).
Proof.
  rewrite fmap_app, list_to_set_app_L. simpl.
  rewrite union_empty_r_L. apply (comm_L (∪)).
Qed.

(** One record: the invariant moves on by that record, the backend total is
    untouched, and [break loop] happens only without a predicate and with
    the output at the limit. *)
Lemma forBody_inv prior a pr :
  accInv limit autoMergeStatus prior a →
  accInv limit autoMergeStatus (prior ++ [pr])
         (fst (forBody limit autoMergeStatus pr a))
  ∧ Api.TotalCount (res (fst (forBody limit autoMergeStatus pr a)))
    = Api.TotalCount (res a)
  ∧ (snd (forBody limit autoMergeStatus pr a) = true →
     autoMergeStatus = None
     ∧ len (Api.PullRequests (res (fst (forBody limit autoMergeStatus pr a))))
       = limit).
Proof.
  intros [Hc Ho Hr Hf Hs]. unfold forBody.
  rewrite (alreadySeen_duplicate prior) by done.
  destruct (duplicate prior pr) eqn:Hdup; simpl.
  - split; [|done].
    split; unfold expectedOutput, keptRecords, removedRecords in *;
      rewrite ?firstSeen_snoc, ?Hdup, ?app_nil_r; try done.
    by rewrite duplicate_check.
  - destruct (filteredOut autoMergeStatus pr) eqn:Hfil; simpl.
    + split; [|done].
      split; simpl; rewrite ?fresh_check, ?Hc; try done;
        unfold expectedOutput, keptRecords, removedRecords in *;
        rewrite firstSeen_snoc, Hdup, List.filter_app; simpl;
        rewrite Hfil; simpl; rewrite ?app_nil_r; try done.
      * rewrite Hr. unfold add. rewrite wrapInt_add_wrap. f_equal.
        unfold len. rewrite length_app. simpl. lia.
      * symmetry. apply Z.ltb_lt. unfold len. rewrite length_app. simpl. lia.
    + assert (Hout :
        Api.PullRequests
          (if len (Api.PullRequests (res a)) <? limit
           then appendPullRequest pr (res a) else res a)
        = expectedOutput limit autoMergeStatus (prior ++ [pr])).
      { unfold expectedOutput at 1, keptRecords.
        rewrite firstSeen_snoc, Hdup, List.filter_app. simpl.
        rewrite Hfil. simpl. rewrite take_snoc_limit.
        fold (keptRecords autoMergeStatus prior).
        fold (expectedOutput limit autoMergeStatus prior).
        rewrite <- Ho.
        destruct (len (Api.PullRequests (res a)) <? limit); simpl; by rewrite ?Ho. }
      split; [|split].
      * split; simpl; rewrite ?fresh_check, ?Hc; try done;
          unfold removedRecords in *;
          rewrite ?firstSeen_snoc, ?Hdup, ?List.filter_app; simpl;
          rewrite ?Hfil; simpl; rewrite ?app_nil_r; try done;
          destruct (len (Api.PullRequests (res a)) <? limit); simpl; done.
      * destruct (len (Api.PullRequests (res a)) <? limit); simpl; done.
      * intros [Hlen Hnil]%andb_true_iff. split.
        -- by destruct autoMergeStatus.
        -- by apply Z.eqb_eq.
Qed.

End Invariant.

(** ** A whole page, and the whole loop *)

Section Pages.
Variable limit : Z.
Variable autoMergeStatus : option bool.
Implicit Types (prior nodes : list Api.PullRequest) (pr : Api.PullRequest).
Implicit Types (a : acc) (tr : list exchange).

Lemma forNodes_inv nodes : ∀ prior a a' brk,
  accInv limit autoMergeStatus prior a →
  forNodes limit autoMergeStatus nodes a = (a', brk) →
  Api.TotalCount (res a') = Api.TotalCount (res a)
  ∧ resultInv limit autoMergeStatus (prior ++ nodes) a'
  ∧ (brk = false → accInv limit autoMergeStatus (prior ++ nodes) a')
  ∧ (brk = true →
     autoMergeStatus = None ∧ len (Api.PullRequests (res a')) = limit).
Proof.
  induction nodes as [|pr rest IH]; intros prior a a' brk Hinv Hrun; simpl in Hrun.
  - injection Hrun as <- <-. rewrite app_nil_r.
    split; [done|]. split; [by apply accInv_resultInv|]. by split.
  - destruct (forBody_inv limit autoMergeStatus prior a pr Hinv)
      as (Hinv1 & Htot1 & Hbrk1).
    destruct (forBody limit autoMergeStatus pr a) as [a1 [|]] eqn:Hbody;
      simpl in *.
    + injection Hrun as <- <-. destruct (Hbrk1 eq_refl) as [Hnil Hlen].
      split; [done|]. split; [|by split].
      destruct Hinv1 as [_ Ho Hr Hf Hs]. subst autoMergeStatus.
      rewrite removedRecords_nil_status in Hr, Hf.
      split; rewrite ?removedRecords_nil_status; try done.
      rewrite Ho in Hlen |- *.
      change (pr :: rest) with ([pr] ++ rest). rewrite app_assoc.
      symmetry. by apply expectedOutput_full.
    + change (pr :: rest) with ([pr] ++ rest). rewrite app_assoc.
      destruct (IH _ _ _ _ Hinv1 Hrun) as (Htot & Hres & Hno & Hbrk).
      split; [congruence|]. done.
Qed.

(** With a predicate the loop over records never leaves early: the page is
    folded through [forBody] to its last record. *)
Lemma forNodes_with_predicate b nodes a :
  forNodes limit (Some b) nodes a
  = (foldl (λ a pr, fst (forBody limit (Some b) pr a)) a nodes, false).
Proof.
  revert a. induction nodes as [|pr rest IH]; intros a; simpl; [done|].
  destruct (forBody limit (Some b) pr a) as [a1 brk] eqn:Hbody.
  assert (brk = false) as ->.
  { unfold forBody in Hbody.
    destruct (alreadySeen _ _); [by injection Hbody as <- <-|].
    destruct (filteredOut _ _); [by injection Hbody as <- <-|].
    injection Hbody as <- <-. simpl. apply andb_false_r. }
  simpl. apply IH.
Qed.

Lemma pagesOf_cons_page x p tr :
  pageOf x = Some p → pagesOf (x :: tr) = p :: pagesOf tr.
Proof. intros Hx. unfold pagesOf. simpl. by rewrite Hx. Qed.

Lemma nodesOf_cons_page x p tr :
  pageOf x = Some p → nodesOf (x :: tr) = Nodes p ++ nodesOf tr.
Proof. intros Hx. unfold nodesOf. by rewrite (pagesOf_cons_page x p). Qed.

Lemma finish_total a T n :
  Api.TotalCount (res a) = T → removed a = wrapInt n →
  finish a = Returned (Some (setTotalCount (sub T n) (res a))) None.
Proof.
  intros <- Hn. unfold finish, sub. by rewrite Hn, wrapInt_sub_wrap.
Qed.

Context {R : Type} `{!requester R}.

Lemma fetchLoop_spec fuel : ∀ (r : R) pageLimit cursor a prior out err tr,
  accInv limit autoMergeStatus prior a →
  fetchLoop limit autoMergeStatus fuel r pageLimit cursor a
  = (Returned (Some out) err, tr) →
  err = None ∧ ∃ final, runSpec limit autoMergeStatus prior tr out final.
Proof.
  induction fuel as [|fuel IH];
    intros r pageLimit cursor a prior out err tr Hinv Hrun; simpl in Hrun;
    [done|].
  destruct (Request r pageLimit cursor) as [r' [[prData|] [e|]]] eqn:Hreq;
    try done.
  set (x := mkExchange pageLimit cursor (Some prData, None)) in *.
  assert (Hx : pageOf x = Some prData) by done.
  pose proof (accInv_recordTotal limit autoMergeStatus prior a prData Hinv)
    as Hinv0.
  destruct (forNodes limit autoMergeStatus (Nodes prData)
              (recordTotal prData a)) as [a1 brk] eqn:Hnodes.
  destruct (forNodes_inv _ _ _ _ _ Hinv0 Hnodes)
    as (Htot & [Ho Hr Hf Hs] & Hno & Hbrk).
  simpl in Htot.
  assert (Hone : nodesOf [x] = Nodes prData).
  { rewrite (nodesOf_cons_page x prData) by done.
    unfold nodesOf. simpl. by rewrite app_nil_r. }
  destruct brk.
  { (* break loop *)
    destruct (Hbrk eq_refl) as [Hnil Hlen].
    rewrite (finish_total a1 _ _ Htot Hr) in Hrun.
    injection Hrun as <- <- <-. split; [done|]. exists prData.
    split; simpl; rewrite ?Hone; try done.
    - by repeat constructor.
    - rewrite Hf, Hnil, !removedRecords_nil_status. simpl.
      by rewrite andb_false_r. }
  destruct (HasNextPage (PageInfo prData)) eqn:Hmore; simpl in Hrun.
  2:{ (* the last page *)
    rewrite (finish_total (clearUpperBound a1) (TotalCount prData)
               (len (removedRecords autoMergeStatus (prior ++ Nodes prData))))
      in Hrun by done.
    injection Hrun as <- <- <-. split; [done|]. exists prData.
    split; simpl; rewrite ?Hone, ?Hmore; try done.
    - by repeat constructor.
    - by left. }
  destruct (len (Api.PullRequests (res a1)) =? limit) eqn:Hfull.
  { (* the limit is met after the page *)
    rewrite (finish_total a1 _ _ Htot Hr) in Hrun.
    injection Hrun as <- <- <-. split; [done|]. exists prData.
    split; simpl; rewrite ?Hone, ?Hmore; try done.
    - by repeat constructor.
    - intros _. right. by apply Z.eqb_eq. }
  (* another page *)
  destruct (fetchLoop limit autoMergeStatus fuel r'
              (nextPageLimit limit autoMergeStatus pageLimit a1)
              (Some (EndCursor (PageInfo prData))) a1) as [o xs] eqn:Hrec.
  injection Hrun as -> <-.
  destruct (IH _ _ _ _ _ _ _ _ (Hno eq_refl) Hrec) as [-> [final Hspec]].
  split; [done|]. exists final.
  destruct Hspec as [Hd Hl Hout Htotal Hflag Hcap Hstop].
  rewrite <- app_assoc in Hout, Htotal, Hflag.
  split; rewrite ?(nodesOf_cons_page x prData) by done; try done.
  - by constructor.
  - rewrite (pagesOf_cons_page x prData) by done.
    by rewrite last_cons, Hl.
Qed.

End Pages.

(** ** The exchanges of a run *)

Section Exchanges.
Context {R : Type} `{!requester R}.
Variable limit : Z.
Implicit Types (a : acc) (tr : list exchange) (r : R).

(** A failed call is the last one, and its error is what the run returns. *)
Lemma fetchLoop_error autoMergeStatus fuel :
  ∀ r pageLimit cursor a o tr k x e,
    fetchLoop limit autoMergeStatus fuel r pageLimit cursor a = (o, tr) →
    tr !! k = Some x → errorOf x = Some e →
    o = Returned None (Some e) ∧ length tr = S k.
Proof.
  induction fuel as [|fuel IH];
    intros r pageLimit cursor a o tr k x e Hrun Hk He; simpl in Hrun.
  { injection Hrun as <- <-. done. }
  destruct (Request r pageLimit cursor) as [r' [prData [e0|]]] eqn:Hreq.
  { injection Hrun as <- <-. destruct k as [|k]; [|done].
    injection Hk as <-. unfold errorOf in He. simpl in He.
    by injection He as ->. }
  assert (Hsingle :
    ∀ o', (o', [mkExchange pageLimit cursor (prData, None)]) = (o, tr) →
          o = Returned None (Some e) ∧ length tr = S k).
  { intros o' [= <- <-]. destruct k as [|k]; [|done].
    injection Hk as <-. done. }
  destruct prData as [prData|]; [|by eapply Hsingle].
  destruct (forNodes _ _ _ _) as [a1 [|]]; [by eapply Hsingle|].
  destruct (negb _); [by eapply Hsingle|].
  destruct (_ =? _); [by eapply Hsingle|].
  destruct (fetchLoop _ _ _ _ _ _ _) as [o' xs] eqn:Hrec.
  injection Hrun as -> <-. destruct k as [|k]; simpl in Hk.
  - injection Hk as <-. done.
  - destruct (IH _ _ _ _ _ _ _ _ _ Hrec Hk He) as [-> Hlen].
    split; [done|]. simpl. by rewrite Hlen.
Qed.

(** The first call carries the loop's current page size and cursor. *)
Lemma fetchLoop_first autoMergeStatus fuel r pageLimit cursor a o tr x :
  fetchLoop limit autoMergeStatus fuel r pageLimit cursor a = (o, tr) →
  head tr = Some x →
  reqLimit x = pageLimit ∧ reqCursor x = cursor.
Proof.
  destruct fuel as [|fuel]; simpl; intros Hrun Hx.
  { by injection Hrun as <- <-. }
  destruct (Request r pageLimit cursor) as [r' [prData [e0|]]].
  { injection Hrun as <- <-. by injection Hx as <-. }
  destruct prData as [prData|];
    [|injection Hrun as <- <-; by injection Hx as <-].
  destruct (forNodes _ _ _ _) as [a1 [|]];
    [injection Hrun as <- <-; by injection Hx as <-|].
  destruct (negb _); [injection Hrun as <- <-; by injection Hx as <-|].
  destruct (_ =? _); [injection Hrun as <- <-; by injection Hx as <-|].
  destruct (fetchLoop _ _ _ _ _ _ _) as [o' xs].
  injection Hrun as <- <-. by injection Hx as <-.
Qed.

(** With a predicate the page size never changes. *)
Lemma fetchLoop_sizes_with_predicate b fuel :
  ∀ r pageLimit cursor a o tr,
    fetchLoop limit (Some b) fuel r pageLimit cursor a = (o, tr) →
    Forall (λ x, reqLimit x = pageLimit) tr.
Proof.
  induction fuel as [|fuel IH]; intros r pageLimit cursor a o tr Hrun;
    simpl in Hrun.
  { injection Hrun as <- <-. constructor. }
  destruct (Request r pageLimit cursor) as [r' [prData [e0|]]].
  { injection Hrun as <- <-. by repeat constructor. }
  destruct prData as [prData|];
    [|injection Hrun as <- <-; by repeat constructor].
  destruct (forNodes _ _ _ _) as [a1 [|]];
    [injection Hrun as <- <-; by repeat constructor|].
  destruct (negb _); [injection Hrun as <- <-; by repeat constructor|].
  destruct (_ =? _); [injection Hrun as <- <-; by repeat constructor|].
  destruct (fetchLoop _ _ _ _ _ _ _) as [o' xs] eqn:Hrec.
  injection Hrun as <- <-. constructor; [done|].
  by apply IH in Hrec.
Qed.

(** The subtraction of line 83 does not wrap. *)
Lemma nextPageLimit_nil prior pageLimit a :
  isInt limit → accInv limit None prior a →
  nextPageLimit limit None pageLimit a
  = Z.min pageLimit (limit - len (expectedOutput limit None prior)).
Proof.
  intros Hint [_ Ho _ _ _]. unfold nextPageLimit, sub. simpl.
  rewrite min_is_Zmin, Ho. f_equal. apply wrapInt_small.
  destruct (Z.lt_ge_cases limit 0) as [Hneg|Hpos].
  - rewrite len_expectedOutput_neg by done. by rewrite Z.sub_0_r.
  - pose proof (len_expectedOutput_le limit None prior Hpos).
    unfold isInt, minInt, maxInt, intSize, len in *. lia.
Qed.

(** Without a predicate each later call asks for no more than the call
    before it, and for no more than the room left in the output. *)
Lemma fetchLoop_sizes_shrink fuel :
  ∀ r pageLimit cursor a prior o tr i x y,
    isInt limit → accInv limit None prior a →
    fetchLoop limit None fuel r pageLimit cursor a = (o, tr) →
    tr !! i = Some x → tr !! S i = Some y →
    reqLimit y <= reqLimit x
    ∧ reqLimit y
      <= limit - len (expectedOutput limit None
                        (prior ++ nodesOf (take (S i) tr))).
Proof.
  induction fuel as [|fuel IH];
    intros r pageLimit cursor a prior o tr i x y Hint Hinv Hrun Hi HSi;
    simpl in Hrun.
  { by injection Hrun as <- <-. }
  destruct (Request r pageLimit cursor) as [r' [prData [e0|]]] eqn:Hreq.
  { by injection Hrun as <- <-. }
  destruct prData as [prData|]; [|by injection Hrun as <- <-].
  pose proof (accInv_recordTotal limit None prior a prData Hinv) as Hinv0.
  destruct (forNodes limit None (Nodes prData) (recordTotal prData a))
    as [a1 brk] eqn:Hnodes.
  destruct (forNodes_inv _ _ _ _ _ _ _ Hinv0 Hnodes) as (_ & _ & Hno & _).
  destruct brk; [by injection Hrun as <- <-|].
  destruct (negb _); [by injection Hrun as <- <-|].
  destruct (_ =? _); [by injection Hrun as <- <-|].
  destruct (fetchLoop _ _ _ _ _ _ _) as [o' xs] eqn:Hrec.
  injection Hrun as <- <-. specialize (Hno eq_refl).
  set (x0 := mkExchange pageLimit cursor (Some prData, None)) in *.
  assert (Hx0 : pageOf x0 = Some prData) by done.
  destruct i as [|i]; simpl in Hi, HSi.
  - injection Hi as <-.
    assert (Hy : head xs = Some y) by (by destruct xs).
    destruct (fetchLoop_first _ _ _ _ _ _ _ _ _ Hrec Hy) as [-> _].
    rewrite (nextPageLimit_nil (prior ++ Nodes prData)) by done.
    simpl. rewrite (nodesOf_cons_page x0 prData) by done.
    unfold nodesOf at 1. simpl. rewrite app_nil_r. lia.
  - destruct (IH _ _ _ _ _ _ _ _ _ _ Hint Hno Hrec Hi HSi) as [H1 H2].
    split; [done|]. simpl.
    rewrite (nodesOf_cons_page x0 prData) by done.
    by rewrite app_assoc.
Qed.

(** More fuel does not change a run that has come to an end. *)
Lemma fetchLoop_fuel_mono autoMergeStatus fuel :
  ∀ fuel' r pageLimit cursor a o tr,
    fetchLoop limit autoMergeStatus fuel r pageLimit cursor a = (o, tr) →
    o ≠ OutOfFuel → (fuel ≤ fuel')%nat →
    fetchLoop limit autoMergeStatus fuel' r pageLimit cursor a = (o, tr).
Proof.
  induction fuel as [|fuel IH];
    intros fuel' r pageLimit cursor a o tr Hrun Ho Hle; simpl in Hrun.
  { by injection Hrun as <- <-. }
  destruct fuel' as [|fuel']; [lia|]. simpl.
  destruct (Request r pageLimit cursor) as [r' [prData [e0|]]]; [done|].
  destruct prData as [prData|]; [|done].
  destruct (forNodes _ _ _ _) as [a1 [|]]; [done|].
  destruct (negb _); [done|].
  destruct (_ =? _); [done|].
  destruct (fetchLoop limit autoMergeStatus fuel _ _ _ _) as [o' xs] eqn:Hrec.
  injection Hrun as <- <-.
  by rewrite (IH fuel' _ _ _ _ _ _ Hrec Ho ltac:(lia)).
Qed.

End Exchanges.

(** A scripted page source ends every run: one unit of fuel per scripted
    reply, and one more for the failure that follows the script. *)
Lemma fetchLoop_scripted_terminates limit autoMergeStatus (s : script) :
  ∀ pageLimit cursor a,
    fst (fetchLoop limit autoMergeStatus (S (length s)) s pageLimit cursor a)
    ≠ OutOfFuel.
Proof.
  induction s as [|x s IH]; intros pageLimit cursor a; [done|].
  cbn [length]. remember (S (length s)) as n eqn:Hn.
  simpl. destruct x as [prData [e0|]]; [done|].
  destruct prData as [prData|]; [|done].
  destruct (forNodes _ _ _ _) as [a1 [|]]; [done|].
  destruct (negb _); [done|].
  destruct (_ =? _); [done|].
  specialize (IH (nextPageLimit limit autoMergeStatus pageLimit a1)
                 (Some (EndCursor (PageInfo prData))) a1).
  subst n.
  destruct (fetchLoop _ _ _ _ _ _ _) as [o xs]. done.
Qed.

(** ** Properties of [fetchPullRequests] *)

Lemma fetchPullRequests_spec {R : Type} `{!requester R} fuel (r : R) limit
    autoMergeStatus out err tr :
  fetchPullRequests fuel r limit autoMergeStatus
  = (Returned (Some out) err, tr) →
  err = None ∧ ∃ final, runSpec limit autoMergeStatus [] tr out final.
Proof.
  intros Hrun. eapply fetchLoop_spec; [apply accInv_initial | exact Hrun].
Qed.

Lemma len_pos_iff {A} (l : list A) : (0 <? len l) = true ↔ l ≠ [].
Proof.
  unfold len. destruct l; simpl; [|by split].
  split; [done|]. by intros [].
Qed.

(** C1, as stated, fails: the only record of the only page is removed by the
    predicate, the page reports no further pages, and line 75 clears the
    flag. *)
Lemma upper_bound_cleared_on_last_page :
  fst (fetchPullRequests 1 lastPageScript 10 (Some true))
  = Returned (Some {| Api.TotalCount := 0; Api.PullRequests := [];
                      Api.SearchCapped := false;
                      Api.TotalCountIsUpperBound := false |}) None
  ∧ removedRecords (Some true)
      (nodesOf (snd (fetchPullRequests 1 lastPageScript 10 (Some true))))
    = [mkPR 7 "a" false]
  ∧ ¬ UpperBoundAsStated.
Proof.
  split; [by vm_compute|]. split; [by vm_compute|].
  intros Hclaim.
  assert (∃ tr,
    fetchPullRequests 1 lastPageScript 10 (Some true)
    = (Returned (Some {| Api.TotalCount := 0; Api.PullRequests := [];
                         Api.SearchCapped := false;
                         Api.TotalCountIsUpperBound := false |}) None, tr)
    ∧ removedRecords (Some true) (nodesOf tr) ≠ []) as (tr & Hrun & Hrem).
  { eexists. split; [vm_compute; reflexivity|]. by vm_compute. }
  by specialize (Hclaim script _ 1%nat lastPageScript 10 true _ _ _ Hrun Hrem).
Qed.

(** C1 (amended): with an inclusion predicate, a successful invocation
    reports its count as an upper bound exactly when the predicate removed a
    record and the last page fetched announced further pages; after a page
    with has-more = false the flag is false whatever was removed. *)
Theorem upper_bound_flag_with_predicate {R : Type} `{!requester R} fuel (r : R)
    limit b out err tr :
  fetchPullRequests fuel r limit (Some b) = (Returned (Some out) err, tr) →
  ∃ final,
    last (pagesOf tr) = Some final
    ∧ (Api.TotalCountIsUpperBound out = true
       ↔ removedRecords (Some b) (nodesOf tr) ≠ []
         ∧ HasNextPage (PageInfo final) = true)
    ∧ (HasNextPage (PageInfo final) = false →
       Api.TotalCountIsUpperBound out = false).
Proof.
  intros Hrun. destruct (fetchPullRequests_spec _ _ _ _ _ _ _ Hrun)
    as [_ [final [_ Hlast _ _ Hflag _ _]]].
  exists final. split; [done|]. simpl in Hflag. rewrite Hflag. split.
  - rewrite andb_true_iff, len_pos_iff. tauto.
  - by intros ->.
Qed.

Lemma upper_bound_flag_with_predicate_witness :
  ∃ out tr,
    fetchPullRequests 1 firstPageScript 1 (Some false)
    = (Returned (Some out) None, tr)
    ∧ Api.TotalCountIsUpperBound out = true
    ∧ ∃ final,
        last (pagesOf tr) = Some final
        ∧ (Api.TotalCountIsUpperBound out = true
           ↔ removedRecords (Some false) (nodesOf tr) ≠ []
             ∧ HasNextPage (PageInfo final) = true)
        ∧ (HasNextPage (PageInfo final) = false →
           Api.TotalCountIsUpperBound out = false).
Proof.
  eexists _, _. split; [vm_compute; reflexivity|]. split; [reflexivity|].
  apply (upper_bound_flag_with_predicate 1 firstPageScript 1 false _ None).
  vm_compute; reflexivity.
Defined.

(** C2: without an inclusion predicate, a successful invocation returns the
    flag cleared and the total count of the last page fetched, whether it
    stopped at a page with has-more = false or at the limit. *)
Theorem exact_count_without_predicate {R : Type} `{!requester R} fuel (r : R)
    limit out err tr :
  fetchPullRequests fuel r limit None = (Returned (Some out) err, tr) →
  Forall (λ p, isInt (TotalCount p)) (pagesOf tr) →
  ∃ final,
    last (pagesOf tr) = Some final
    ∧ Api.TotalCountIsUpperBound out = false
    ∧ Api.TotalCount out = TotalCount final.
Proof.
  intros Hrun Hints. destruct (fetchPullRequests_spec _ _ _ _ _ _ _ Hrun)
    as [_ [final [_ Hlast _ Htotal Hflag _ _]]].
  exists final. split; [done|].
  rewrite removedRecords_nil_status in Htotal, Hflag. split.
  - rewrite Hflag. apply andb_false_r.
  - rewrite Htotal. unfold sub, len. simpl. rewrite Z.sub_0_r.
    apply wrapInt_small.
    rewrite Forall_forall in Hints. by apply Hints, last_Some_elem_of.
Qed.

Lemma exact_count_without_predicate_witness :
  ∃ out tr,
    fetchPullRequests 1 firstPageScript 2 None = (Returned (Some out) None, tr)
    ∧ ∃ final,
        last (pagesOf tr) = Some final
        ∧ Api.TotalCountIsUpperBound out = false
        ∧ Api.TotalCount out = TotalCount final.
Proof.
  eexists _, _. split; [vm_compute; reflexivity|].
  apply (exact_count_without_predicate 1 firstPageScript 2 _ None).
  - vm_compute; reflexivity.
  - simpl. constructor; [|constructor]. simpl.
    unfold isInt, minInt, maxInt, intSize. lia.
Defined.

(** C3: a successful invocation returns the total count of the last page
    fetched minus the number of records the inclusion predicate removed, in
    [int] arithmetic, and so the mathematical difference whenever that is an
    [int].  Only records seen first are counted: a record skipped as a
    duplicate is not among [removedRecords]. *)
Theorem total_count_minus_removed {R : Type} `{!requester R} fuel (r : R)
    limit autoMergeStatus out err tr :
  fetchPullRequests fuel r limit autoMergeStatus
  = (Returned (Some out) err, tr) →
  ∃ final,
    last (pagesOf tr) = Some final
    ∧ Api.TotalCount out
      = sub (TotalCount final)
            (len (removedRecords autoMergeStatus (nodesOf tr)))
    ∧ (isInt (TotalCount final
              - len (removedRecords autoMergeStatus (nodesOf tr))) →
       Api.TotalCount out
       = TotalCount final - len (removedRecords autoMergeStatus (nodesOf tr))).
Proof.
  intros Hrun. destruct (fetchPullRequests_spec _ _ _ _ _ _ _ Hrun)
    as [_ [final [_ Hlast _ Htotal _ _ _]]].
  exists final. simpl in Htotal. split; [done|]. split; [done|].
  intros Hint. rewrite Htotal. by apply wrapInt_small.
Qed.

Lemma total_count_minus_removed_witness :
  ∃ out tr,
    fetchPullRequests 2 twoPageScript 5 (Some false)
    = (Returned (Some out) None, tr)
    ∧ Api.TotalCount out = 7
    ∧ ∃ final,
        last (pagesOf tr) = Some final
        ∧ Api.TotalCount out
          = sub (TotalCount final) (len (removedRecords (Some false) (nodesOf tr)))
        ∧ (isInt (TotalCount final
                  - len (removedRecords (Some false) (nodesOf tr))) →
           Api.TotalCount out
           = TotalCount final - len (removedRecords (Some false) (nodesOf tr))).
Proof.
  eexists _, _. split; [vm_compute; reflexivity|]. split; [reflexivity|].
  apply (total_count_minus_removed 2 twoPageScript 5 (Some false) _ None).
  vm_compute; reflexivity.
Defined.

(** C4: for a limit [L >= 0] the returned list holds at most [L] records. *)
Theorem output_within_limit {R : Type} `{!requester R} fuel (r : R)
    limit autoMergeStatus out err tr :
  0 <= limit →
  fetchPullRequests fuel r limit autoMergeStatus
  = (Returned (Some out) err, tr) →
  len (Api.PullRequests out) <= limit.
Proof.
  intros Hlimit Hrun. destruct (fetchPullRequests_spec _ _ _ _ _ _ _ Hrun)
    as [_ [final [_ _ Hout _ _ _ _]]].
  rewrite Hout. by apply len_expectedOutput_le.
Qed.

Lemma output_within_limit_witness :
  ∃ out tr,
    fetchPullRequests 1 firstPageScript 1 None = (Returned (Some out) None, tr)
    ∧ len (Api.PullRequests out) <= 1.
Proof.
  eexists _, _. split; [vm_compute; reflexivity|].
  eapply (output_within_limit 1 firstPageScript 1 None _ None); [lia|].
  vm_compute; reflexivity.
Defined.

(** ** Keys and order of the records seen first *)

Section Order.
Implicit Types (l earlier : list Api.PullRequest) (pr : Api.PullRequest).

Lemma filter_sublist {A} (f : A → bool) (l : list A) :
  List.filter f l `sublist_of` l.
Proof.
  induction l as [|x l IH]; simpl; [done|].
  destruct (f x); by constructor.
Qed.

Lemma filter_sublist_mono {A} (f : A → bool) (l1 l2 : list A) :
  l1 `sublist_of` l2 → List.filter f l1 `sublist_of` List.filter f l2.
Proof.
  induction 1 as [|x l1 l2 _ IH|x l1 l2 _ IH]; simpl; [done| |].
  - destruct (f x); [by constructor|done].
  - destruct (f x); [by constructor|done].
Qed.

Lemma filter_filter_andb {A} (f g : A → bool) (l : list A) :
  List.filter f (List.filter g l) = List.filter (λ x, f x && g x) l.
Proof.
  induction l as [|x l IH]; simpl; [done|].
  destruct (g x); simpl; rewrite ?andb_true_r, ?andb_false_r;
    [destruct (f x)|]; by rewrite IH.
Qed.

Lemma firstSeenFrom_sublist l : ∀ earlier,
  firstSeenFrom earlier l `sublist_of` l.
Proof.
  induction l as [|pr l IH]; intros earlier; simpl; [done|].
  destruct (duplicate earlier pr); simpl; by constructor.
Qed.

Lemma positiveKeys_sublist l1 l2 :
  l1 `sublist_of` l2 → positiveKeys l1 `sublist_of` positiveKeys l2.
Proof.
  intros Hsub. unfold positiveKeys. apply filter_sublist_mono.
  by apply fmap_sublist.
Qed.

(** Among the records seen first, a positive key occurs once, and it is not
    the key of any earlier record. *)
Lemma firstSeenFrom_keys l : ∀ earlier,
  NoDup (positiveKeys (firstSeenFrom earlier l))
  ∧ ∀ n, n ∈ positiveKeys (firstSeenFrom earlier l) →
         n ∉ Api.Number <$> earlier.
Proof.
  induction l as [|pr l IH]; intros earlier; simpl.
  { split; [constructor|]. intros n Hn. by apply elem_of_nil in Hn. }
  destruct (IH (earlier ++ [pr])) as [Hnd Hfresh].
  assert (Hkeep : ∀ n, n ∈ positiveKeys (firstSeenFrom (earlier ++ [pr]) l) →
                       (n ∉ Api.Number <$> earlier) ∧ n ≠ Api.Number pr).
  { intros n Hn. specialize (Hfresh n Hn).
    rewrite fmap_app, not_elem_of_app in Hfresh. destruct Hfresh as [? Hne].
    split; [done|]. intros ->. apply Hne. simpl. apply list_elem_of_here. }
  unfold duplicate.
  destruct (Z.ltb_spec 0 (Api.Number pr)) as [Hpos|Hnonpos]; simpl.
  - destruct (bool_decide_reflect (Api.Number pr ∈ Api.Number <$> earlier))
      as [Hin|Hnotin]; simpl.
    + split; [done|]. intros n Hn. by apply Hkeep.
    + unfold positiveKeys. simpl.
      destruct (Z.ltb_spec 0 (Api.Number pr)); [|lia].
      fold (positiveKeys (firstSeenFrom (earlier ++ [pr]) l)). split.
      * constructor; [|done]. intros Hn. by destruct (Hkeep _ Hn).
      * intros n [->|Hn]%elem_of_cons; [done|]. by apply Hkeep.
  - unfold positiveKeys. simpl.
    destruct (Z.ltb_spec 0 (Api.Number pr)); [lia|].
    fold (positiveKeys (firstSeenFrom (earlier ++ [pr]) l)).
    split; [done|]. intros n Hn. by apply Hkeep.
Qed.

(** Records with an unset key are all seen first. *)
Lemma firstSeenFrom_unset (h : Api.PullRequest → bool) l :
  (∀ pr, h pr = true → Api.Number pr <= 0) →
  ∀ earlier, List.filter h (firstSeenFrom earlier l) = List.filter h l.
Proof.
  intros Hh. induction l as [|pr l IH]; intros earlier; simpl; [done|].
  rewrite List.filter_app, IH. unfold duplicate.
  destruct (h pr) eqn:Hpr.
  - apply Hh in Hpr as Hle.
    destruct (Z.ltb_spec 0 (Api.Number pr)); [lia|]. simpl. by rewrite Hpr.
  - destruct (_ && _); simpl; by rewrite ?Hpr.
Qed.

Lemma expectedOutput_sublist limit s l :
  expectedOutput limit s l `sublist_of` l.
Proof.
  unfold expectedOutput, keptRecords, firstSeen.
  etrans; [apply sublist_take|]. etrans; [apply filter_sublist|].
  apply firstSeenFrom_sublist.
Qed.

Lemma expectedOutput_keys limit s l :
  NoDup (positiveKeys (expectedOutput limit s l)).
Proof.
  eapply sublist_NoDup; [apply (firstSeenFrom_keys l [])|].
  apply positiveKeys_sublist. unfold expectedOutput, keptRecords, firstSeen.
  etrans; [apply sublist_take|]. apply filter_sublist.
Qed.

Lemma forNodes_app limit s pre l a a1 :
  forNodes limit s pre a = (a1, false) →
  forNodes limit s (pre ++ l) a = forNodes limit s l a1.
Proof.
  revert a. induction pre as [|pr pre IH]; intros a; simpl.
  - by intros [= ->].
  - destruct (forBody limit s pr a) as [a' [|]]; [done|]. apply IH.
Qed.

End Order.

(** C5, as stated, fails: line 50 skips a record only when its key is
    positive, so two records with the key [-1] are both returned. *)
Lemma negative_keys_not_deduplicated :
  fst (fetchPullRequests 1 negativeKeyScript 5 None)
  = Returned (Some {| Api.TotalCount := 2;
                      Api.PullRequests :=
                        [mkPR (-1) "a" false; mkPR (-1) "b" false];
                      Api.SearchCapped := false;
                      Api.TotalCountIsUpperBound := false |}) None
  ∧ ¬ DedupAsStated.
Proof.
  split; [by vm_compute|]. intros Hclaim.
  assert (∃ tr,
    fetchPullRequests 1 negativeKeyScript 5 None
    = (Returned (Some {| Api.TotalCount := 2;
                         Api.PullRequests :=
                           [mkPR (-1) "a" false; mkPR (-1) "b" false];
                         Api.SearchCapped := false;
                         Api.TotalCountIsUpperBound := false |}) None, tr))
    as (tr & Hrun).
  { eexists. vm_compute; reflexivity. }
  specialize (Hclaim script _ 1%nat negativeKeyScript 5 None _ _ _ Hrun).
  simpl in Hclaim. apply NoDup_cons in Hclaim as [Hnotin _].
  apply Hnotin. apply list_elem_of_here.
Qed.

(** C5 (amended): in a successful invocation no positive key occurs twice in
    the output; a record whose positive key is already in the dedup set is
    skipped and leaves every variable as it was; a record whose key is zero
    or negative is never skipped, so such records are returned, repeats
    included, whenever the predicate keeps them and the limit has room. *)
Theorem dedup_positive_keys {R : Type} `{!requester R} fuel (r : R)
    limit autoMergeStatus out err tr :
  fetchPullRequests fuel r limit autoMergeStatus
  = (Returned (Some out) err, tr) →
  NoDup (positiveKeys (Api.PullRequests out))
  ∧ (∀ a pr, Api.Number pr ∈ check a → 0 < Api.Number pr →
             forBody limit autoMergeStatus pr a = (a, false))
  ∧ (∀ a pr, Api.Number pr <= 0 → alreadySeen (check a) pr = false)
  ∧ (len (keptRecords autoMergeStatus (nodesOf tr)) <= limit →
     List.filter unsetKey (Api.PullRequests out)
     = List.filter
         (λ pr, unsetKey pr && negb (filteredOut autoMergeStatus pr))
         (nodesOf tr)).
Proof.
  intros Hrun. destruct (fetchPullRequests_spec _ _ _ _ _ _ _ Hrun)
    as [_ [final [_ _ Hout _ _ _ _]]].
  simpl in Hout. rewrite Hout. split; [apply expectedOutput_keys|].
  split; [|split].
  - intros a pr Hin Hpos. unfold forBody, alreadySeen.
    rewrite bool_decide_eq_true_2 by done.
    by destruct (Z.ltb_spec 0 (Api.Number pr)); [|lia].
  - intros a pr Hle. unfold alreadySeen.
    destruct (Z.ltb_spec 0 (Api.Number pr)); [lia|]. apply andb_false_r.
  - intros Hroom. unfold expectedOutput.
    rewrite take_ge by (unfold len in Hroom; lia).
    unfold keptRecords, firstSeen. rewrite filter_filter_andb.
    apply firstSeenFrom_unset.
    intros pr [Hpr _]%andb_true_iff. by apply Z.leb_le.
Qed.

Lemma dedup_positive_keys_witness :
  ∃ out tr,
    fetchPullRequests 1 unsetKeyScript 10 None = (Returned (Some out) None, tr)
    ∧ Api.PullRequests out
      = [mkPR 0 "x" false; mkPR 0 "y" false; mkPR 5 "z" false]
    ∧ NoDup (positiveKeys (Api.PullRequests out))
    ∧ List.filter unsetKey (Api.PullRequests out)
      = List.filter (λ pr, unsetKey pr && negb (filteredOut None pr))
                    (nodesOf tr).
Proof.
  eexists _, _. split; [vm_compute; reflexivity|]. split; [reflexivity|].
  edestruct (dedup_positive_keys 1 unsetKeyScript 10 None)
    as (Hnd & _ & _ & Hunset); [vm_compute; reflexivity|].
  split; [exact Hnd|]. apply Hunset. vm_compute. discriminate.
Defined.

(** C6: when the page source fails on its [k]-th call ([k >= 1]), that call
    is the last one and the invocation returns a nil result with that very
    error, whatever the earlier pages delivered. *)
Theorem error_propagation {R : Type} `{!requester R} fuel (r : R)
    limit autoMergeStatus o tr (k : nat) x e :
  (1 ≤ k)%nat →
  fetchPullRequests fuel r limit autoMergeStatus = (o, tr) →
  tr !! (k - 1)%nat = Some x →
  errorOf x = Some e →
  o = Returned None (Some e) ∧ length tr = k.
Proof.
  intros Hk Hrun Hx He.
  destruct (fetchLoop_error _ _ _ _ _ _ _ _ _ _ _ _ Hrun Hx He) as [-> Hlen].
  split; [done|]. lia.
Qed.

Lemma error_propagation_witness :
  ∃ o tr x,
    fetchPullRequests 5 failingScript 5 None = (o, tr)
    ∧ tr !! 2%nat = Some x
    ∧ errorOf x = Some "boom"%string
    ∧ nodesOf (take 2 tr)
      = [mkPR 1 "a" false; mkPR 2 "b" false; mkPR 2 "b" false; mkPR 3 "c" true]
    ∧ (o = Returned None (Some "boom"%string) ∧ length tr = 3%nat).
Proof.
  eexists _, _, _. split; [vm_compute; reflexivity|].
  split; [reflexivity|]. split; [reflexivity|]. split; [reflexivity|].
  eapply (error_propagation 5 failingScript 5 None _ _ 3);
    [lia | vm_compute; reflexivity | reflexivity | reflexivity].
Defined.

(** Line 83, read off two consecutive calls: the later page size is the
    smaller of the earlier one and of the room left in the output. *)
Lemma fetchLoop_sizes_step {R : Type} `{!requester R} limit fuel :
  ∀ (r : R) pageLimit cursor a prior o tr i x y,
    isInt limit → accInv limit None prior a →
    fetchLoop limit None fuel r pageLimit cursor a = (o, tr) →
    tr !! i = Some x → tr !! S i = Some y →
    reqLimit y
    = Z.min (reqLimit x)
            (limit - len (expectedOutput limit None
                            (prior ++ nodesOf (take (S i) tr)))).
Proof.
  induction fuel as [|fuel IH];
    intros r pageLimit cursor a prior o tr i x y Hint Hinv Hrun Hi HSi;
    simpl in Hrun.
  { by injection Hrun as <- <-. }
  destruct (Request r pageLimit cursor) as [r' [prData [e0|]]] eqn:Hreq.
  { by injection Hrun as <- <-. }
  destruct prData as [prData|]; [|by injection Hrun as <- <-].
  pose proof (accInv_recordTotal limit None prior a prData Hinv) as Hinv0.
  destruct (forNodes limit None (Nodes prData) (recordTotal prData a))
    as [a1 brk] eqn:Hnodes.
  destruct (forNodes_inv _ _ _ _ _ _ _ Hinv0 Hnodes) as (_ & _ & Hno & _).
  destruct brk; [by injection Hrun as <- <-|].
  destruct (negb _); [by injection Hrun as <- <-|].
  destruct (_ =? _); [by injection Hrun as <- <-|].
  destruct (fetchLoop _ _ _ _ _ _ _) as [o' xs] eqn:Hrec.
  injection Hrun as <- <-. specialize (Hno eq_refl).
  set (x0 := mkExchange pageLimit cursor (Some prData, None)) in *.
  assert (Hx0 : pageOf x0 = Some prData) by done.
  destruct i as [|i]; simpl in Hi, HSi.
  - injection Hi as <-.
    assert (Hy : head xs = Some y) by (by destruct xs).
    destruct (fetchLoop_first _ _ _ _ _ _ _ _ _ _ Hrec Hy) as [-> _].
    rewrite (nextPageLimit_nil limit (prior ++ Nodes prData)) by done.
    simpl. rewrite (nodesOf_cons_page x0 prData) by done.
    unfold nodesOf at 1. simpl. by rewrite app_nil_r.
  - rewrite (IH _ _ _ _ _ _ _ _ _ _ Hint Hno Hrec Hi HSi). simpl.
    rewrite (nodesOf_cons_page x0 prData) by done.
    by rewrite app_assoc.
Qed.

(** C7: without a predicate the first call asks for the smaller of 100 and
    [limit] records, and each later call asks for the smaller of what the
    call before it asked for and of the limit less the output gathered from
    the pages before it, hence for no more than either; with a predicate
    every call asks for 100. *)
Theorem page_size_policy {R : Type} `{!requester R} fuel (r : R)
    limit autoMergeStatus o tr :
  isInt limit →
  fetchPullRequests fuel r limit autoMergeStatus = (o, tr) →
  match autoMergeStatus with
  | None =>
      (∀ x, head tr = Some x → reqLimit x = Z.min 100 limit)
      ∧ (∀ i x y, tr !! i = Some x → tr !! S i = Some y →
           reqLimit y
           = Z.min (reqLimit x)
                   (limit - len (expectedOutput limit None
                                   (nodesOf (take (S i) tr))))
           ∧ reqLimit y <= reqLimit x
           ∧ reqLimit y
             <= limit - len (expectedOutput limit None (nodesOf (take (S i) tr))))
  | Some _ => Forall (λ x, reqLimit x = 100) tr
  end.
Proof.
  intros Hint Hrun. destruct autoMergeStatus as [b|].
  - by apply (fetchLoop_sizes_with_predicate _ _ _ _ _ _ _ _ _ Hrun).
  - split.
    + intros x Hx.
      destruct (fetchLoop_first _ _ _ _ _ _ _ _ _ _ Hrun Hx) as [-> _].
      unfold initialPageLimit. simpl. apply min_is_Zmin.
    + intros i x y Hi HSi.
      pose proof (fetchLoop_sizes_step limit fuel _ _ _ _ [] _ _ _ _ _ Hint
                    (accInv_initial limit None) Hrun Hi HSi) as Hstep.
      simpl in Hstep. split; [exact Hstep|]. lia.
Qed.

Lemma page_size_policy_witness :
  ∃ o tr,
    fetchPullRequests 5 failingScript 5 None = (o, tr)
    ∧ reqLimit <$> tr = [5; 3; 2]
    ∧ (∀ x, head tr = Some x → reqLimit x = Z.min 100 5)
    ∧ (∀ i x y, tr !! i = Some x → tr !! S i = Some y →
         reqLimit y
         = Z.min (reqLimit x)
                 (5 - len (expectedOutput 5 None (nodesOf (take (S i) tr))))
         ∧ reqLimit y <= reqLimit x
         ∧ reqLimit y
           <= 5 - len (expectedOutput 5 None (nodesOf (take (S i) tr)))).
Proof.
  eexists _, _. split; [vm_compute; reflexivity|]. split; [reflexivity|].
  eapply (page_size_policy 5 failingScript 5 None).
  - unfold isInt, minInt, maxInt, intSize. lia.
  - vm_compute; reflexivity.
Defined.

(** C8: without a predicate the loop is left at once, inside the page, by the
    record after which the output holds [limit] records: the loop over the
    page's records ends with [break loop] in the state that record left, so
    the records after it are not looked at (their keys do not enter the dedup
    set), and the invocation returns from that state without a further call.
    With a predicate the loop over a page's records always runs to the page's
    last record, and a successful invocation ends at the check after a page:
    that page reported has-more = false, or the output then holds [limit]
    records. *)
Theorem limit_stop_policy {R : Type} `{!requester R} (limit : Z) :
  (∀ fuel (r r' : R) pageLimit cursor a prData pre pr rest a1 a2 brk,
     Request r pageLimit cursor = (r', (Some prData, None)) →
     Nodes prData = pre ++ pr :: rest →
     forNodes limit None pre (recordTotal prData a) = (a1, false) →
     alreadySeen (check a1) pr = false →
     forBody limit None pr a1 = (a2, brk) →
     len (Api.PullRequests (res a2)) = limit →
     forNodes limit None (Nodes prData) (recordTotal prData a) = (a2, true)
     ∧ check a2 = {[ Api.Number pr ]} ∪ check a1
     ∧ removed a2 = removed a1
     ∧ fetchLoop limit None (S fuel) r pageLimit cursor a
       = (finish a2, [mkExchange pageLimit cursor (Some prData, None)]))
  ∧ (∀ b nodes a,
       forNodes limit (Some b) nodes a
       = (foldl (λ a pr, fst (forBody limit (Some b) pr a)) a nodes, false))
  ∧ (∀ b fuel (r : R) out err tr,
       fetchPullRequests fuel r limit (Some b)
       = (Returned (Some out) err, tr) →
       ∃ final,
         last (pagesOf tr) = Some final
         ∧ (HasNextPage (PageInfo final) = false
            ∨ len (Api.PullRequests out) = limit)).
Proof.
  split; [|split].
  - intros fuel r r' pageLimit cursor a prData pre pr rest a1 a2 brk
      Hreq Hnodes Hpre Hseen Hbody Hlen.
    assert (Hbrk : forBody limit None pr a1 = (a2, true)).
    { unfold forBody in Hbody |- *. rewrite Hseen in Hbody |- *.
      simpl in Hbody |- *. injection Hbody as <- <-.
      simpl in Hlen. by rewrite Hlen, Z.eqb_refl. }
    assert (Hpage :
      forNodes limit None (Nodes prData) (recordTotal prData a) = (a2, true)).
    { rewrite Hnodes, (forNodes_app _ _ _ _ _ _ Hpre). simpl.
      by rewrite Hbrk. }
    split; [exact Hpage|].
    split; [|split].
    + unfold forBody in Hbody. rewrite Hseen in Hbody. simpl in Hbody.
      by injection Hbody as <- _.
    + unfold forBody in Hbody. rewrite Hseen in Hbody. simpl in Hbody.
      by injection Hbody as <- _.
    + simpl. by rewrite Hreq, Hpage.
  - intros b nodes a. apply forNodes_with_predicate.
  - intros b fuel r out err tr Hrun.
    destruct (fetchPullRequests_spec _ _ _ _ _ _ _ Hrun)
      as [_ [final [_ Hlast _ _ _ _ Hstop]]].
    exists final. split; [done|]. by apply Hstop.
Qed.

Lemma limit_stop_policy_witness :
  (forNodes 3 None (Nodes fivePage) (recordTotal fivePage initialAcc)
   = (fiveAfterThird, true)
   ∧ check fiveAfterThird = {[ 3 ]} ∪ check fiveAfterSecond
   ∧ removed fiveAfterThird = removed fiveAfterSecond
   ∧ fetchLoop 3 None 1 fiveScript 3 None initialAcc
     = (finish fiveAfterThird, [mkExchange 3 None (Some fivePage, None)]))
  ∧ check fiveAfterThird = list_to_set [1; 2; 3]
  ∧ fetchPullRequests 1 fiveScript 3 None
    = (Returned (Some {| Api.TotalCount := 12;
                         Api.PullRequests :=
                           [mkPR 1 "a" false; mkPR 2 "b" false;
                            mkPR 3 "c" false];
                         Api.SearchCapped := false;
                         Api.TotalCountIsUpperBound := false |}) None,
       [mkExchange 3 None (Some fivePage, None)])
  ∧ ∃ out tr final,
      fetchPullRequests 1 firstPageScript 1 (Some false)
      = (Returned (Some out) None, tr)
      ∧ last (pagesOf tr) = Some final
      ∧ (HasNextPage (PageInfo final) = false
         ∨ len (Api.PullRequests out) = 1).
Proof.
  destruct (limit_stop_policy (R:=script) 3) as (Hstop & _ & _).
  destruct (limit_stop_policy (R:=script) 1) as (_ & _ & Hpost).
  split; [|split; [|split]].
  - apply (Hstop 0%nat fiveScript (tail fiveScript) 3 None initialAcc
             fivePage [mkPR 1 "a" false; mkPR 2 "b" false] (mkPR 3 "c" false)
             [mkPR 4 "d" false; mkPR 5 "e" false]
             fiveAfterSecond fiveAfterThird true);
      vm_compute; reflexivity.
  - vm_compute; reflexivity.
  - vm_compute; reflexivity.
  - edestruct (Hpost false 1%nat firstPageScript) as (final & Hlast & Hwhy);
      [vm_compute; reflexivity|].
    eexists _, _, final. split; [vm_compute; reflexivity|]. by split.
Defined.

(** C9: the output of a successful invocation is, in order of arrival over
    the pages fetched, the records seen first that the predicate keeps, cut
    at the limit; nothing is reordered. *)
Theorem first_seen_order {R : Type} `{!requester R} fuel (r : R)
    limit autoMergeStatus out err tr :
  fetchPullRequests fuel r limit autoMergeStatus
  = (Returned (Some out) err, tr) →
  Api.PullRequests out
  = take (Z.to_nat limit)
         (List.filter (λ pr, negb (filteredOut autoMergeStatus pr))
                      (firstSeen (nodesOf tr)))
  ∧ Api.PullRequests out `sublist_of` nodesOf tr.
Proof.
  intros Hrun. destruct (fetchPullRequests_spec _ _ _ _ _ _ _ Hrun)
    as [_ [final [_ _ Hout _ _ _ _]]].
  simpl in Hout. rewrite Hout. split; [done|]. apply expectedOutput_sublist.
Qed.

Lemma first_seen_order_witness :
  ∃ out tr,
    fetchPullRequests 2 twoPageScript 5 (Some false)
    = (Returned (Some out) None, tr)
    ∧ Api.PullRequests out = [mkPR 2 "b" false; mkPR 3 "c" false]
    ∧ Api.PullRequests out
      = take (Z.to_nat 5)
             (List.filter (λ pr, negb (filteredOut (Some false) pr))
                          (firstSeen (nodesOf tr)))
    ∧ Api.PullRequests out `sublist_of` nodesOf tr.
Proof.
  eexists _, _. split; [vm_compute; reflexivity|]. split; [reflexivity|].
  apply (first_seen_order 2 twoPageScript 5 (Some false) _ None).
  vm_compute; reflexivity.
Defined.

(** ** [searchPullRequests] *)

(** C10 fails on the code: when [fetchPullRequests] returns a nil result with
    an error, [searchPullRequests] assigns [res.SearchCapped] through the nil
    pointer before it looks at the error, and panics; [listPullRequests]
    hands the same pair back to its caller. *)
Theorem searchPullRequests_nil_dereference {R : Type} `{!requester R} fuel
    (r : R) limit autoMergeStatus e tr :
  fetchPullRequests fuel r limit autoMergeStatus
  = (Returned None (Some e), tr) →
  searchPullRequests fuel r limit autoMergeStatus = Panicked
  ∧ listPullRequests fuel r limit autoMergeStatus = Returned None (Some e).
Proof.
  intros Hrun. unfold searchPullRequests, listPullRequests.
  by rewrite Hrun.
Qed.

Lemma searchPullRequests_nil_dereference_witness :
  searchPullRequests 1 [(None, Some "boom"%string) : response] 30 None
  = Panicked
  ∧ listPullRequests 1 [(None, Some "boom"%string) : response] 30 None
    = Returned None (Some "boom"%string).
Proof.
  eapply (searchPullRequests_nil_dereference 1
            [(None, Some "boom"%string) : response] 30 None).
  vm_compute; reflexivity.
Defined.

(** ** Further properties of the loop over pages *)

Section MoreExchanges.
Context {R : Type} `{!requester R}.
Variable limit : Z.
Implicit Types (a : acc) (tr : list exchange) (r : R).

(** A call that is not the last one delivered a page that announced more
    pages, and the next call carries that page's end cursor. *)
Lemma fetchLoop_cursors autoMergeStatus fuel :
  ∀ r pageLimit cursor a o tr i x y,
    fetchLoop limit autoMergeStatus fuel r pageLimit cursor a = (o, tr) →
    tr !! i = Some x → tr !! S i = Some y →
    ∃ p, pageOf x = Some p
         ∧ HasNextPage (PageInfo p) = true
         ∧ reqCursor y = Some (EndCursor (PageInfo p)).
Proof.
  induction fuel as [|fuel IH];
    intros r pageLimit cursor a o tr i x y Hrun Hi HSi; simpl in Hrun.
  { by injection Hrun as <- <-. }
  destruct (Request r pageLimit cursor) as [r' [prData [e0|]]] eqn:Hreq.
  { by injection Hrun as <- <-. }
  destruct prData as [prData|]; [|by injection Hrun as <- <-].
  destruct (forNodes _ _ _ _) as [a1 [|]]; [by injection Hrun as <- <-|].
  destruct (HasNextPage (PageInfo prData)) eqn:Hmore; simpl in Hrun;
    [|by injection Hrun as <- <-].
  destruct (_ =? _); [by injection Hrun as <- <-|].
  destruct (fetchLoop _ _ _ _ _ _ _) as [o' xs] eqn:Hrec.
  injection Hrun as <- <-. destruct i as [|i]; simpl in Hi, HSi.
  - injection Hi as <-. exists prData. split; [done|]. split; [done|].
    assert (Hy : head xs = Some y) by (by destruct xs).
    by destruct (fetchLoop_first _ _ _ _ _ _ _ _ _ _ Hrec Hy) as [_ ->].
  - by apply (IH _ _ _ _ _ _ _ _ _ Hrec Hi HSi).
Qed.

(** The run panics exactly when a call returned neither a page nor an error,
    and it never returns both a result and an error, or neither. *)
Lemma fetchLoop_outcome autoMergeStatus fuel :
  ∀ r pageLimit cursor a o tr,
    fetchLoop limit autoMergeStatus fuel r pageLimit cursor a = (o, tr) →
    (o = Panicked ↔ Exists (λ x, reply x = (None, None)) tr)
    ∧ match o with
      | Returned (Some _) (Some _) | Returned None None => False
      | _ => True
      end.
Proof.
  induction fuel as [|fuel IH]; intros r pageLimit cursor a o tr Hrun;
    simpl in Hrun.
  { injection Hrun as <- <-. split; [|done].
    split; [done|]. by intros ?%Exists_nil. }
  assert (Hone : ∀ (p : option responsePage) (e : option error) (o' : outcome Api.PullRequestAndTotalCount),
    (p, e) ≠ (None, None) → o' ≠ Panicked →
    (o' = Panicked
     ↔ Exists (λ x, reply x = (None, None)) [mkExchange pageLimit cursor (p, e)])).
  { intros p e o' Hpe Ho'. split; [done|].
    intros [?|?%Exists_nil]%Exists_cons; done. }
  destruct (Request r pageLimit cursor) as [r' [prData [e0|]]] eqn:Hreq.
  { injection Hrun as <- <-. split; [|done]. by apply Hone. }
  destruct prData as [prData|].
  2:{ injection Hrun as <- <-. split; [|done].
      split; [|done]. intros _. by apply Exists_cons_hd. }
  destruct (forNodes _ _ _ _) as [a1 [|]];
    [injection Hrun as <- <-; split; [|done]; by apply Hone|].
  destruct (negb _);
    [injection Hrun as <- <-; split; [|done]; by apply Hone|].
  destruct (_ =? _);
    [injection Hrun as <- <-; split; [|done]; by apply Hone|].
  destruct (fetchLoop _ _ _ _ _ _ _) as [o' xs] eqn:Hrec.
  injection Hrun as <- <-. destruct (IH _ _ _ _ _ _ Hrec) as [Hpanic Hshape].
  split; [|done]. rewrite Hpanic, Exists_cons. simpl. split; [tauto|].
  by intros [?|?].
Qed.

(** Every reply in the run's exchanges is a reply of the requester. *)
Lemma fetchLoop_replies (P : response → Prop) autoMergeStatus fuel :
  (∀ r n c, P (snd (Request r n c))) →
  ∀ r pageLimit cursor a o tr,
    fetchLoop limit autoMergeStatus fuel r pageLimit cursor a = (o, tr) →
    Forall (λ x, P (reply x)) tr.
Proof.
  intros HP. induction fuel as [|fuel IH];
    intros r pageLimit cursor a o tr Hrun; simpl in Hrun.
  { injection Hrun as <- <-. constructor. }
  pose proof (HP r pageLimit cursor) as Hrep.
  destruct (Request r pageLimit cursor) as [r' [prData [e0|]]] eqn:Hreq;
    simpl in Hrep.
  { injection Hrun as <- <-. by repeat constructor. }
  destruct prData as [prData|];
    [|injection Hrun as <- <-; by repeat constructor].
  destruct (forNodes _ _ _ _) as [a1 [|]];
    [injection Hrun as <- <-; by repeat constructor|].
  destruct (negb _); [injection Hrun as <- <-; by repeat constructor|].
  destruct (_ =? _); [injection Hrun as <- <-; by repeat constructor|].
  destruct (fetchLoop _ _ _ _ _ _ _) as [o' xs] eqn:Hrec.
  injection Hrun as <- <-. constructor; [done|]. by eapply IH.
Qed.

(** A successful run ends at a page without successor or with the output at
    the limit, with or without a predicate. *)
Lemma fetchLoop_stop autoMergeStatus fuel :
  ∀ r pageLimit cursor a prior out err tr,
    accInv limit autoMergeStatus prior a →
    fetchLoop limit autoMergeStatus fuel r pageLimit cursor a
    = (Returned (Some out) err, tr) →
    ∃ final,
      last (pagesOf tr) = Some final
      ∧ (HasNextPage (PageInfo final) = false
         ∨ len (Api.PullRequests out) = limit).
Proof.
  induction fuel as [|fuel IH];
    intros r pageLimit cursor a prior out err tr Hinv Hrun; simpl in Hrun;
    [done|].
  destruct (Request r pageLimit cursor) as [r' [[prData|] [e|]]] eqn:Hreq;
    try done.
  pose proof (accInv_recordTotal limit autoMergeStatus prior a prData Hinv)
    as Hinv0.
  destruct (forNodes limit autoMergeStatus (Nodes prData)
              (recordTotal prData a)) as [a1 brk] eqn:Hnodes.
  destruct (forNodes_inv _ _ _ _ _ _ _ Hinv0 Hnodes) as (_ & _ & Hno & Hbrk).
  destruct brk.
  { destruct (Hbrk eq_refl) as [_ Hlen]. injection Hrun as <- <- <-.
    exists prData. split; [done|]. by right. }
  destruct (HasNextPage (PageInfo prData)) eqn:Hmore; simpl in Hrun.
  2:{ injection Hrun as <- <- <-. exists prData. split; [done|]. by left. }
  destruct (len (Api.PullRequests (res a1)) =? limit) eqn:Hfull.
  { injection Hrun as <- <- <-. exists prData. split; [done|].
    right. by apply Z.eqb_eq. }
  destruct (fetchLoop _ _ _ _ _ _ _) as [o xs] eqn:Hrec.
  injection Hrun as -> <-.
  destruct (IH _ _ _ _ _ _ _ _ (Hno eq_refl) Hrec) as (final & Hlast & Hwhy).
  exists final. split; [|done].
  rewrite (pagesOf_cons_page _ prData) by done. by rewrite last_cons, Hlast.
Qed.

Lemma len_expectedOutput_mono s (l1 l2 : list Api.PullRequest) :
  len (expectedOutput limit s l1) <= len (expectedOutput limit s (l1 ++ l2)).
Proof.
  unfold expectedOutput, len. rewrite keptRecords_app, !length_take, length_app.
  lia.
Qed.

(** Without a predicate the size of each call is [min(100, limit - len)],
    where [len] is the length of the output gathered from the pages before
    the call; for a positive limit it lies between 1 and 100. *)
Lemma fetchLoop_sizes_exact fuel :
  ∀ r pageLimit cursor a prior o tr i x,
    isInt limit → accInv limit None prior a →
    pageLimit = Z.min 100 (limit - len (expectedOutput limit None prior)) →
    (0 < limit → len (expectedOutput limit None prior) < limit) →
    fetchLoop limit None fuel r pageLimit cursor a = (o, tr) →
    tr !! i = Some x →
    reqLimit x
    = Z.min 100 (limit - len (expectedOutput limit None
                                (prior ++ nodesOf (take i tr))))
    ∧ (0 < limit → 1 <= reqLimit x <= 100).
Proof.
  induction fuel as [|fuel IH];
    intros r pageLimit cursor a prior o tr i x Hint Hinv Hsize Hroom Hrun Hi;
    simpl in Hrun.
  { by injection Hrun as <- <-. }
  assert (Hhere : ∀ rep tl, tr = mkExchange pageLimit cursor rep :: tl →
            i = 0%nat →
            reqLimit x
            = Z.min 100 (limit - len (expectedOutput limit None
                                        (prior ++ nodesOf (take i tr))))
            ∧ (0 < limit → 1 <= reqLimit x <= 100)).
  { intros rep tl -> ->. injection Hi as <-. simpl.
    unfold nodesOf. simpl. rewrite app_nil_r. split; [done|]. lia. }
  assert (Hsingle : ∀ rep, tr = [mkExchange pageLimit cursor rep] →
            reqLimit x
            = Z.min 100 (limit - len (expectedOutput limit None
                                        (prior ++ nodesOf (take i tr))))
            ∧ (0 < limit → 1 <= reqLimit x <= 100)).
  { intros rep Htr. destruct i as [|i]; [by eapply Hhere|].
    subst tr. done. }
  destruct (Request r pageLimit cursor) as [r' [prData [e0|]]] eqn:Hreq.
  { injection Hrun as <- <-. by eapply Hsingle. }
  destruct prData as [prData|];
    [|injection Hrun as <- <-; by eapply Hsingle].
  pose proof (accInv_recordTotal limit None prior a prData Hinv) as Hinv0.
  destruct (forNodes limit None (Nodes prData) (recordTotal prData a))
    as [a1 brk] eqn:Hnodes.
  destruct (forNodes_inv _ _ _ _ _ _ _ Hinv0 Hnodes) as (_ & _ & Hno & _).
  destruct brk; [injection Hrun as <- <-; by eapply Hsingle|].
  destruct (negb _); [injection Hrun as <- <-; by eapply Hsingle|].
  destruct (len (Api.PullRequests (res a1)) =? limit) eqn:Hfull;
    [injection Hrun as <- <-; by eapply Hsingle|].
  destruct (fetchLoop _ _ _ _ _ _ _) as [o' xs] eqn:Hrec.
  injection Hrun as <- <-. specialize (Hno eq_refl).
  destruct i as [|i]; [by eapply Hhere|]. simpl in Hi.
  set (x0 := mkExchange pageLimit cursor (Some prData, None)) in *.
  apply Z.eqb_neq in Hfull. rewrite (inv_output _ _ _ _ Hno) in Hfull.
  pose proof (len_expectedOutput_mono None prior (Nodes prData)) as Hmono.
  assert (Hroom' : 0 < limit →
            len (expectedOutput limit None (prior ++ Nodes prData)) < limit).
  { intros Hpos.
    pose proof (len_expectedOutput_le limit None (prior ++ Nodes prData)
                  ltac:(lia)). lia. }
  destruct (IH r' (nextPageLimit limit None pageLimit a1)
              (Some (EndCursor (PageInfo prData))) a1 (prior ++ Nodes prData)
              o' xs i x Hint Hno) as [Heq Hb]; try done.
  { rewrite (nextPageLimit_nil limit (prior ++ Nodes prData)) by done. lia. }
  split; [|done]. rewrite Heq. simpl.
  rewrite (nodesOf_cons_page x0 prData) by done. by rewrite app_assoc.
Qed.

End MoreExchanges.

Lemma len_expectedOutput_nil limit s : len (expectedOutput limit s []) = 0.
Proof. unfold expectedOutput, keptRecords. simpl. by rewrite take_nil. Qed.

Lemma initialPageLimit_nil limit :
  initialPageLimit limit None
  = Z.min 100 (limit - len (expectedOutput limit None [])).
Proof.
  unfold initialPageLimit. simpl.
  by rewrite min_is_Zmin, len_expectedOutput_nil, Z.sub_0_r.
Qed.

(** ** Further properties of [fetchPullRequests] *)

(** X1: the first call carries no cursor; every call that is followed by
    another delivered a page with has-more set, and the following call
    carries that page's end cursor. *)
Theorem cursor_threading {R : Type} `{!requester R} fuel (r : R)
    limit autoMergeStatus o tr :
  fetchPullRequests fuel r limit autoMergeStatus = (o, tr) →
  (∀ x, head tr = Some x → reqCursor x = None)
  ∧ (∀ i x y, tr !! i = Some x → tr !! S i = Some y →
       ∃ p, pageOf x = Some p
            ∧ HasNextPage (PageInfo p) = true
            ∧ reqCursor y = Some (EndCursor (PageInfo p))).
Proof.
  intros Hrun. split.
  - intros x Hx.
    by destruct (fetchLoop_first _ _ _ _ _ _ _ _ _ _ Hrun Hx) as [_ ->].
  - intros i x y Hi HSi.
    exact (fetchLoop_cursors _ _ _ _ _ _ _ _ _ _ _ _ Hrun Hi HSi).
Qed.

Lemma cursor_threading_witness :
  ∃ o tr,
    fetchPullRequests 5 failingScript 5 None = (o, tr)
    ∧ reqCursor <$> tr = [None; Some "c1"; Some "c2"]%string
    ∧ (∀ x, head tr = Some x → reqCursor x = None)
    ∧ (∀ i x y, tr !! i = Some x → tr !! S i = Some y →
         ∃ p, pageOf x = Some p
              ∧ HasNextPage (PageInfo p) = true
              ∧ reqCursor y = Some (EndCursor (PageInfo p))).
Proof.
  eexists _, _. split; [vm_compute; reflexivity|]. split; [reflexivity|].
  eapply (cursor_threading 5 failingScript 5 None).
  vm_compute; reflexivity.
Defined.

(** X2: an invocation panics exactly when some call of the page source
    returned a nil page together with a nil error; and it never returns a
    result together with an error, nor a nil result with a nil error. *)
Theorem panic_only_on_nil_reply {R : Type} `{!requester R} fuel (r : R)
    limit autoMergeStatus o tr :
  fetchPullRequests fuel r limit autoMergeStatus = (o, tr) →
  (o = Panicked ↔ Exists (λ x, reply x = (None, None)) tr)
  ∧ match o with
    | Returned (Some _) (Some _) | Returned None None => False
    | _ => True
    end.
Proof. apply fetchLoop_outcome. Qed.

Lemma panic_only_on_nil_reply_witness :
  ∃ o tr,
    fetchPullRequests 5 nilReplyScript 5 None = (o, tr)
    ∧ o = Panicked
    ∧ (o = Panicked ↔ Exists (λ x, reply x = (None, None)) tr)
    ∧ match o with
      | Returned (Some _) (Some _) | Returned None None => False
      | _ => True
      end.
Proof.
  eexists _, _. split; [vm_compute; reflexivity|]. split; [reflexivity|].
  eapply (panic_only_on_nil_reply 5 nilReplyScript 5 None).
  vm_compute; reflexivity.
Defined.

(** X3: with or without a predicate, a successful invocation stops either at
    a page that reports no further pages or with exactly [limit] records in
    the output: a shorter output means that every page was fetched. *)
Theorem stops_at_last_page_or_limit {R : Type} `{!requester R} fuel (r : R)
    limit autoMergeStatus out err tr :
  fetchPullRequests fuel r limit autoMergeStatus
  = (Returned (Some out) err, tr) →
  ∃ final,
    last (pagesOf tr) = Some final
    ∧ (HasNextPage (PageInfo final) = false
       ∨ len (Api.PullRequests out) = limit).
Proof.
  intros Hrun.
  exact (fetchLoop_stop limit _ _ _ _ _ _ [] _ _ _
           (accInv_initial limit autoMergeStatus) Hrun).
Qed.

Lemma stops_at_last_page_or_limit_witness :
  ∃ out tr,
    fetchPullRequests 1 firstPageScript 2 None = (Returned (Some out) None, tr)
    ∧ ∃ final,
        last (pagesOf tr) = Some final
        ∧ (HasNextPage (PageInfo final) = false
           ∨ len (Api.PullRequests out) = 2).
Proof.
  eexists _, _. split; [vm_compute; reflexivity|].
  eapply (stops_at_last_page_or_limit 1 firstPageScript 2 None _ None).
  vm_compute; reflexivity.
Defined.

(** X4: with the filter [autoMergeStatus = &b], every returned record has an
    auto-merge request exactly when [b] is true. *)
Theorem output_passes_predicate {R : Type} `{!requester R} fuel (r : R)
    limit b out err tr :
  fetchPullRequests fuel r limit (Some b) = (Returned (Some out) err, tr) →
  Forall (λ pr, isNil (Api.AutoMergeRequest pr) = negb b)
         (Api.PullRequests out).
Proof.
  intros Hrun. destruct (fetchPullRequests_spec _ _ _ _ _ _ _ Hrun)
    as [_ [final [_ _ Hout _ _ _ _]]].
  simpl in Hout. rewrite Hout. apply Forall_forall. intros pr Hin.
  unfold expectedOutput, keptRecords in Hin.
  assert (Hin' : pr ∈ List.filter (λ pr, negb (filteredOut (Some b) pr))
                                   (firstSeen (nodesOf tr)))
    by (eapply elem_of_sublist; [exact Hin | apply sublist_take]).
  apply list_elem_of_In, List.filter_In in Hin' as [_ Hkeep].
  simpl in Hkeep. by destruct b, (isNil (Api.AutoMergeRequest pr)).
Qed.

Lemma output_passes_predicate_witness :
  ∃ out tr,
    fetchPullRequests 2 twoPageScript 5 (Some true)
    = (Returned (Some out) None, tr)
    ∧ Api.PullRequests out = [mkPR 1 "a" true; mkPR 4 "d" true]
    ∧ Forall (λ pr, isNil (Api.AutoMergeRequest pr) = negb true)
             (Api.PullRequests out).
Proof.
  eexists _, _. split; [vm_compute; reflexivity|]. split; [reflexivity|].
  eapply (output_passes_predicate 2 twoPageScript 5 true _ None).
  vm_compute; reflexivity.
Defined.

(** X5: with limit 0 the page source is still called, once (asking for 0
    records when there is no predicate, for 100 otherwise); the invocation
    then ends, and a result it returns holds no record. *)
Theorem limit_zero_single_request {R : Type} `{!requester R} fuel (r : R)
    autoMergeStatus o tr :
  fetchPullRequests (S fuel) r 0 autoMergeStatus = (o, tr) →
  length tr = 1%nat
  ∧ o ≠ OutOfFuel
  ∧ (∀ x, head tr = Some x →
          reqLimit x = if isNil autoMergeStatus then 0 else 100)
  ∧ (∀ out err, o = Returned (Some out) err → Api.PullRequests out = []).
Proof.
  intros Hrun.
  assert (Hsize : ∀ x, head tr = Some x →
            reqLimit x = if isNil autoMergeStatus then 0 else 100).
  { intros x Hx.
    destruct (fetchLoop_first _ _ _ _ _ _ _ _ _ _ Hrun Hx) as [-> _].
    by destruct autoMergeStatus. }
  assert (Hempty : ∀ out err, o = Returned (Some out) err →
            Api.PullRequests out = []).
  { intros out err ->. destruct (fetchPullRequests_spec _ _ _ _ _ _ _ Hrun)
      as [_ [final [_ _ Hout _ _ _ _]]]. by rewrite Hout. }
  unfold fetchPullRequests in Hrun. simpl in Hrun.
  destruct (Request r _ None) as [r' [prData [e0|]]] eqn:Hreq.
  { by injection Hrun as <- <-. }
  destruct prData as [prData|]; [|by injection Hrun as <- <-].
  pose proof (accInv_recordTotal 0 autoMergeStatus [] initialAcc prData
                (accInv_initial 0 autoMergeStatus)) as Hinv0.
  destruct (forNodes 0 autoMergeStatus (Nodes prData)
              (recordTotal prData initialAcc)) as [a1 brk] eqn:Hnodes.
  destruct (forNodes_inv _ _ _ _ _ _ _ Hinv0 Hnodes) as (_ & [Ho _ _ _] & _).
  destruct brk; [by injection Hrun as <- <-|].
  destruct (negb _); [by injection Hrun as <- <-|].
  rewrite Ho in Hrun. by injection Hrun as <- <-.
Qed.

Lemma limit_zero_single_request_witness :
  ∃ o tr,
    fetchPullRequests 3 failingScript 0 None = (o, tr)
    ∧ reqLimit <$> tr = [0]
    ∧ length tr = 1%nat
    ∧ o ≠ OutOfFuel
    ∧ (∀ x, head tr = Some x → reqLimit x = 0)
    ∧ (∀ out err, o = Returned (Some out) err → Api.PullRequests out = []).
Proof.
  eexists _, _. split; [vm_compute; reflexivity|]. split; [reflexivity|].
  eapply (limit_zero_single_request 2 failingScript None).
  vm_compute; reflexivity.
Defined.

(** X6: with a negative limit nothing is ever appended and the limit is never
    met: a successful invocation returns no record and ended at a page that
    reports no further pages; without a predicate every call asks for
    [limit] records, a negative page size. *)
Theorem negative_limit_drains_all_pages {R : Type} `{!requester R} fuel (r : R)
    limit autoMergeStatus o tr :
  limit < 0 →
  fetchPullRequests fuel r limit autoMergeStatus = (o, tr) →
  (∀ out err, o = Returned (Some out) err →
     Api.PullRequests out = []
     ∧ ∃ final, last (pagesOf tr) = Some final
                ∧ HasNextPage (PageInfo final) = false)
  ∧ (isInt limit → autoMergeStatus = None →
     Forall (λ x, reqLimit x = limit) tr).
Proof.
  intros Hneg Hrun. split.
  - intros out err ->.
    destruct (fetchPullRequests_spec _ _ _ _ _ _ _ Hrun)
      as [_ [final' [_ _ Hout _ _ _ _]]].
    assert (Hnil : Api.PullRequests out = []).
    { rewrite Hout. unfold expectedOutput.
      by replace (Z.to_nat limit) with 0%nat by lia. }
    split; [done|].
    destruct (stops_at_last_page_or_limit _ _ _ _ _ _ _ Hrun)
      as (final & Hlast & [Hmore|Hlen]).
    + by exists final.
    + rewrite Hnil in Hlen. unfold len in Hlen. simpl in Hlen. lia.
  - intros Hint ->. apply Forall_lookup. intros i x Hi.
    destruct (fetchLoop_sizes_exact limit fuel r (initialPageLimit limit None) None
                initialAcc [] o tr i x
                Hint (accInv_initial limit None)) as [Heq _]; try done.
    + apply initialPageLimit_nil.
    + lia.
    + rewrite Heq, len_expectedOutput_neg by done. lia.
Qed.

Lemma negative_limit_drains_all_pages_witness :
  ∃ o tr,
    fetchPullRequests 3 twoPageScript (-1) None = (o, tr)
    ∧ reqLimit <$> tr = [-1; -1]
    ∧ (∀ out err, o = Returned (Some out) err →
         Api.PullRequests out = []
         ∧ ∃ final, last (pagesOf tr) = Some final
                    ∧ HasNextPage (PageInfo final) = false)
    ∧ (isInt (-1) → (None : option bool) = None →
       Forall (λ x, reqLimit x = -1) tr).
Proof.
  eexists _, _. split; [vm_compute; reflexivity|]. split; [reflexivity|].
  eapply (negative_limit_drains_all_pages 3 twoPageScript (-1) None);
    [lia | vm_compute; reflexivity].
Defined.

(** X7: without a predicate, each call asks for exactly
    [min(100, limit - n)] records, where [n] is the length of the output
    built from the pages fetched before that call; for a positive limit the
    size asked for always lies between 1 and 100. *)
Theorem page_size_exact {R : Type} `{!requester R} fuel (r : R) limit o tr :
  isInt limit →
  fetchPullRequests fuel r limit None = (o, tr) →
  ∀ i x, tr !! i = Some x →
    reqLimit x
    = Z.min 100 (limit - len (expectedOutput limit None (nodesOf (take i tr))))
    ∧ (0 < limit → 1 <= reqLimit x <= 100).
Proof.
  intros Hint Hrun i x Hi.
  apply (fetchLoop_sizes_exact limit fuel r (initialPageLimit limit None) None
                initialAcc [] o tr i x
           Hint (accInv_initial limit None)); try done.
  - apply initialPageLimit_nil.
  - rewrite len_expectedOutput_nil. lia.
Qed.

Lemma page_size_exact_witness :
  ∃ o tr,
    fetchPullRequests 5 failingScript 5 None = (o, tr)
    ∧ reqLimit <$> tr = [5; 3; 2]
    ∧ ∀ i x, tr !! i = Some x →
        reqLimit x
        = Z.min 100 (5 - len (expectedOutput 5 None (nodesOf (take i tr))))
        ∧ (0 < 5 → 1 <= reqLimit x <= 100).
Proof.
  eexists _, _. split; [vm_compute; reflexivity|]. split; [reflexivity|].
  eapply (page_size_exact 5 failingScript 5).
  - unfold isInt, minInt, maxInt, intSize. lia.
  - vm_compute; reflexivity.
Defined.

(** X8: when [fetchPullRequests] succeeds, the last lines of
    [searchPullRequests] return its records, count and upper-bound flag
    unchanged with [SearchCapped] set exactly when [limit > 1000], while
    [listPullRequests] returns the result as it is, with [SearchCapped]
    false. *)
Theorem search_capped_above_1000 {R : Type} `{!requester R} fuel (r : R)
    limit autoMergeStatus out err tr :
  fetchPullRequests fuel r limit autoMergeStatus
  = (Returned (Some out) err, tr) →
  searchPullRequests fuel r limit autoMergeStatus
  = Returned (Some {| Api.TotalCount := Api.TotalCount out;
                      Api.PullRequests := Api.PullRequests out;
                      Api.SearchCapped := (1000 <? limit);
                      Api.TotalCountIsUpperBound :=
                        Api.TotalCountIsUpperBound out |}) None
  ∧ listPullRequests fuel r limit autoMergeStatus = Returned (Some out) None
  ∧ Api.SearchCapped out = false.
Proof.
  intros Hrun. destruct (fetchPullRequests_spec _ _ _ _ _ _ _ Hrun)
    as [-> [final [_ _ _ _ _ Hcap _]]].
  unfold searchPullRequests, listPullRequests. by rewrite Hrun.
Qed.

Lemma search_capped_above_1000_witness :
  ∃ out tr,
    fetchPullRequests 2 twoPageScript 1001 None
    = (Returned (Some out) None, tr)
    ∧ searchPullRequests 2 twoPageScript 1001 None
      = Returned (Some {| Api.TotalCount := Api.TotalCount out;
                          Api.PullRequests := Api.PullRequests out;
                          Api.SearchCapped := true;
                          Api.TotalCountIsUpperBound :=
                            Api.TotalCountIsUpperBound out |}) None
    ∧ listPullRequests 2 twoPageScript 1001 None = Returned (Some out) None
    ∧ Api.SearchCapped out = false.
Proof.
  eexists _, _. split; [vm_compute; reflexivity|].
  eapply (search_capped_above_1000 2 twoPageScript 1001 None _ None).
  vm_compute; reflexivity.
Defined.

(** ** The two requesters *)

Lemma requestVariables_lookup limit cursor (vars : gmap string variable) :
  requestVariables limit cursor vars !! "limit"%string = Some (VInt limit)
  ∧ requestVariables limit cursor vars !! "endCursor"%string
    = match cursor with
      | Some c => Some (VCursor c)
      | None => vars !! "endCursor"%string
      end
  ∧ ∀ k : string, k ≠ "limit"%string → k ≠ "endCursor"%string →
      requestVariables limit cursor vars !! k = vars !! k.
Proof.
  unfold requestVariables. destruct cursor as [c|].
  - split; [by rewrite lookup_insert_ne, lookup_insert_eq|].
    split; [by rewrite lookup_insert_eq|].
    intros k Hl Hc. by rewrite !lookup_insert_ne.
  - split; [by rewrite lookup_insert_eq|].
    split; [by rewrite lookup_insert_ne|].
    intros k Hl Hc. by rewrite lookup_insert_ne.
Qed.

(** X9: a call of either requester leaves host and query as they are and
    stores the page size under [limit]; it stores the cursor under
    [endCursor] when one is given and otherwise leaves that entry as it was;
    every other variable, such as [owner], [state] or [q], is kept. *)
Theorem request_updates_limit_and_cursor {C : Type}
    `{!graphQLClient C listResponse} `{!graphQLClient C searchResponse}
    (rl : listRequester.t C) (rs : searchRequester.t C) limit cursor :
  let rl' := fst (listRequester.Request rl limit cursor) in
  let rs' := fst (searchRequester.Request rs limit cursor) in
  (listRequester.hostname rl' = listRequester.hostname rl
   ∧ listRequester.query rl' = listRequester.query rl
   ∧ listRequester.variables rl' !! "limit"%string = Some (VInt limit)
   ∧ listRequester.variables rl' !! "endCursor"%string
     = match cursor with
       | Some c => Some (VCursor c)
       | None => listRequester.variables rl !! "endCursor"%string
       end
   ∧ ∀ k : string, k ≠ "limit"%string → k ≠ "endCursor"%string →
       listRequester.variables rl' !! k = listRequester.variables rl !! k)
  ∧ (searchRequester.hostname rs' = searchRequester.hostname rs
     ∧ searchRequester.query rs' = searchRequester.query rs
     ∧ searchRequester.variables rs' !! "limit"%string = Some (VInt limit)
     ∧ searchRequester.variables rs' !! "endCursor"%string
       = match cursor with
         | Some c => Some (VCursor c)
         | None => searchRequester.variables rs !! "endCursor"%string
         end
     ∧ ∀ k : string, k ≠ "limit"%string → k ≠ "endCursor"%string →
         searchRequester.variables rs' !! k
         = searchRequester.variables rs !! k).
Proof.
  simpl. split.
  - unfold listRequester.Request.
    destruct (GraphQL _ _ _ _) as [c [data [e|]]]; simpl;
      (split; [done|]; split; [done|]; apply requestVariables_lookup).
  - unfold searchRequester.Request.
    destruct (GraphQL _ _ _ _) as [c [data [e|]]]; simpl;
      (split; [done|]; split; [done|]; apply requestVariables_lookup).
Qed.

Lemma request_updates_limit_and_cursor_witness :
  let rl' := fst (listRequester.Request demoListRequester 30 (Some "c1"%string)) in
  listRequester.variables rl' !! "limit"%string = Some (VInt 30)
  ∧ listRequester.variables rl' !! "endCursor"%string = Some (VCursor "c1")
  ∧ listRequester.variables rl' !! "owner"%string = Some (VString "cli").
Proof.
  destruct (request_updates_limit_and_cursor demoListRequester
              (searchRequester.mk demoClient "" ∅ "") 30 (Some "c1"%string))
    as [(_ & _ & Hlimit & Hcursor & Hother) _].
  split; [exact Hlimit|]. split; [exact Hcursor|].
  rewrite Hother; [vm_compute; reflexivity | discriminate | discriminate].
Defined.

Lemma listRequester_reply {C : Type} `{!graphQLClient C listResponse}
    (r : listRequester.t C) n c :
  snd (Request r n c) ≠ (None, None).
Proof.
  unfold Request, listRequester_requester, listRequester.Request.
  by destruct (GraphQL _ _ _ _) as [c' [data [e|]]].
Qed.

Lemma searchRequester_reply {C : Type} `{!graphQLClient C searchResponse}
    (r : searchRequester.t C) n c :
  snd (Request r n c) ≠ (None, None).
Proof.
  unfold Request, searchRequester_requester, searchRequester.Request.
  by destruct (GraphQL _ _ _ _) as [c' [data [e|]]].
Qed.

Lemma never_nil_reply_never_panics {R : Type} `{!requester R} fuel (r : R)
    limit autoMergeStatus :
  (∀ r n c, snd (Request r n c) ≠ (None, None)) →
  fst (fetchPullRequests fuel r limit autoMergeStatus) ≠ Panicked.
Proof.
  intros Hrep.
  destruct (fetchPullRequests fuel r limit autoMergeStatus) as [o tr] eqn:Hrun.
  simpl. intros ->.
  apply (fetchLoop_replies limit (λ rep, rep ≠ (None, None))) in Hrun as Hall;
    [|done].
  apply fetchLoop_outcome in Hrun as [[Hex _] _].
  specialize (Hex eq_refl). apply Exists_exists in Hex as (x & Hx & Hnil).
  rewrite Forall_forall in Hall. by apply (Hall x Hx).
Qed.

(** X10: whatever the GraphQL client answers, [fetchPullRequests] over a
    list requester or over a search requester never dereferences a nil page:
    both requesters return a page whenever they return no error. *)
Theorem graphql_requesters_never_panic {C : Type}
    `{!graphQLClient C listResponse} `{!graphQLClient C searchResponse}
    fuel (rl : listRequester.t C) (rs : searchRequester.t C)
    limit autoMergeStatus :
  fst (fetchPullRequests fuel rl limit autoMergeStatus) ≠ Panicked
  ∧ fst (fetchPullRequests fuel rs limit autoMergeStatus) ≠ Panicked.
Proof.
  split; apply never_nil_reply_never_panics.
  - apply listRequester_reply.
  - apply searchRequester_reply.
Qed.

(** The run returns a nil result with an error exactly when a call failed. *)
Lemma fetchLoop_failed {R : Type} `{!requester R} limit autoMergeStatus fuel :
  ∀ (r : R) pageLimit cursor a o tr,
    fetchLoop limit autoMergeStatus fuel r pageLimit cursor a = (o, tr) →
    (∃ res e, o = Returned res (Some e))
    ↔ Exists (λ x, is_Some (errorOf x)) tr.
Proof.
  induction fuel as [|fuel IH]; intros r pageLimit cursor a o tr Hrun;
    simpl in Hrun.
  { injection Hrun as <- <-. split; [by intros (? & ? & ?)|].
    by intros ?%Exists_nil. }
  assert (Hone : ∀ (p : option responsePage)
                   (o' : outcome Api.PullRequestAndTotalCount),
    (∀ res e, o' ≠ Returned res (Some e)) →
    ((∃ res e, o' = Returned res (Some e))
     ↔ Exists (λ x, is_Some (errorOf x))
              [mkExchange pageLimit cursor (p, None)])).
  { intros p o' Ho'. split; [intros (res & e & ->); by destruct (Ho' res e)|].
    intros [[? ?]|?%Exists_nil]%Exists_cons; done. }
  destruct (Request r pageLimit cursor) as [r' [prData [e0|]]] eqn:Hreq.
  { injection Hrun as <- <-. split; [|by eauto].
    intros _. apply Exists_cons_hd. by eexists. }
  destruct prData as [prData|]; [|injection Hrun as <- <-; by apply Hone].
  destruct (forNodes _ _ _ _) as [a1 [|]];
    [injection Hrun as <- <-; by apply Hone|].
  destruct (negb _); [injection Hrun as <- <-; by apply Hone|].
  destruct (_ =? _); [injection Hrun as <- <-; by apply Hone|].
  destruct (fetchLoop _ _ _ _ _ _ _) as [o' xs] eqn:Hrec.
  injection Hrun as <- <-. rewrite (IH _ _ _ _ _ _ Hrec), Exists_cons.
  split; [tauto|]. intros [[? ?]|?]; done.
Qed.

(** ** The callers *)

Section CallerFacts.
Context {H C StringSet : Type} `{!imports H C StringSet}.
Context `{!graphQLClient C listResponse} `{!graphQLClient C searchResponse}.

Lemma shouldUseSearch_withAutoMergeField filters :
  shouldUseSearch (Cmd.withAutoMergeField filters) = shouldUseSearch filters.
Proof.
  unfold Cmd.withAutoMergeField. by destruct (isNil (AutoMergeStatus filters)).
Qed.

Lemma State_withAutoMergeField filters :
  State (Cmd.withAutoMergeField filters) = State filters.
Proof.
  unfold Cmd.withAutoMergeField. by destruct (isNil (AutoMergeStatus filters)).
Qed.

Lemma AutoMergeStatus_withAutoMergeField filters :
  AutoMergeStatus (Cmd.withAutoMergeField filters) = AutoMergeStatus filters.
Proof.
  unfold Cmd.withAutoMergeField. by destruct (isNil (AutoMergeStatus filters)).
Qed.

Lemma stateVariable_None state :
  state ≠ "open"%string → state ≠ "closed"%string →
  state ≠ "merged"%string → state ≠ "all"%string →
  stateVariable state = None.
Proof.
  intros H1 H2 H3 H4. unfold stateVariable.
  apply String.eqb_neq in H1, H2, H3, H4. by rewrite H1, H2, H3, H4.
Qed.

End CallerFacts.





(** X12: without any search criterion, a state other than [open], [closed],
    [merged] and [all] makes [listPullRequests] return a nil result and the
    error [invalid state: <state>], before any request is made. *)
Theorem list_rejects_invalid_state {H C StringSet : Type}
    `{!imports H C StringSet}
    `{!graphQLClient C listResponse} `{!graphQLClient C searchResponse}
    fuel (httpClient : H) repo filters limit :
  shouldUseSearch filters = false →
  State filters ≠ "open"%string → State filters ≠ "closed"%string →
  State filters ≠ "merged"%string → State filters ≠ "all"%string →
  Cmd.listPullRequests fuel httpClient repo filters limit
  = (Returned None (Some ("invalid state: " ++ State filters)%string), []).
Proof.
  intros Hsearch H1 H2 H3 H4. unfold Cmd.listPullRequests.
  rewrite shouldUseSearch_withAutoMergeField, Hsearch.
  rewrite State_withAutoMergeField.
  by rewrite (stateVariable_None _ H1 H2 H3 H4).
Qed.

Lemma list_rejects_invalid_state_witness :
  Cmd.listPullRequests 3 demoClient demoRepo (demoFilters "bogus" "" None) 10
  = (Returned None (Some "invalid state: bogus"%string), []).
Proof.
  apply (list_rejects_invalid_state 3 demoClient demoRepo
           (demoFilters "bogus" "" None) 10); [reflexivity|..]; discriminate.
Defined.

(** X13: without any search criterion, [listPullRequests] never panics, never
    returns a result together with an error, and a result it returns has
    [SearchCapped] false, at most [limit] records when [limit >= 0], and,
    under an auto-merge filter [&b], only records that have an auto-merge
    request exactly when [b] is true. *)
Theorem list_route_result {H C StringSet : Type}
    `{!imports H C StringSet}
    `{!graphQLClient C listResponse} `{!graphQLClient C searchResponse}
    fuel (httpClient : H) repo filters limit o tr :
  shouldUseSearch filters = false →
  Cmd.listPullRequests fuel httpClient repo filters limit = (o, tr) →
  o ≠ Panicked
  ∧ ∀ out err, o = Returned (Some out) err →
      err = None
      ∧ Api.SearchCapped out = false
      ∧ (0 <= limit → len (Api.PullRequests out) <= limit)
      ∧ ∀ b, AutoMergeStatus filters = Some b →
          Forall (λ pr, isNil (Api.AutoMergeRequest pr) = negb b)
                 (Api.PullRequests out).
Proof.
  intros Hsearch. unfold Cmd.listPullRequests.
  rewrite shouldUseSearch_withAutoMergeField, Hsearch.
  rewrite AutoMergeStatus_withAutoMergeField.
  destruct (stateVariable _) as [states|].
  2:{ intros [= <- <-]. split; [done|]. by intros out err. }
  set (r := listRequester.mk _ _ _ _). intros Hrun. split.
  - pose proof (proj1 (graphql_requesters_never_panic fuel r
                         (searchRequester.mk (listRequester.client r) "" ∅ "")
                         limit (AutoMergeStatus filters))) as Hnp.
    by rewrite Hrun in Hnp.
  - intros out err ->.
    destruct (fetchPullRequests_spec _ _ _ _ _ _ _ Hrun)
      as [-> [final [_ _ Hout _ _ Hcap _]]].
    split; [done|]. split; [done|]. split.
    + intros Hpos. rewrite Hout. by apply len_expectedOutput_le.
    + intros b Hb. rewrite Hb in Hrun.
      by apply (output_passes_predicate _ _ _ _ _ _ _ Hrun).
Qed.

Lemma list_route_result_witness :
  ∃ o tr,
    Cmd.listPullRequests 3 demoClient demoRepo
      (demoFilters "open" "" (Some true)) 10 = (o, tr)
    ∧ o = Returned (Some {| Api.TotalCount := 2;
                            Api.PullRequests :=
                              [mkPR 1 "a" true; mkPR 3 "c" true];
                            Api.SearchCapped := false;
                            Api.TotalCountIsUpperBound := false |}) None
    ∧ o ≠ Panicked
    ∧ ∀ out err, o = Returned (Some out) err →
        err = None
        ∧ Api.SearchCapped out = false
        ∧ (0 <= 10 → len (Api.PullRequests out) <= 10)
        ∧ ∀ b, Some true = Some b →
            Forall (λ pr, isNil (Api.AutoMergeRequest pr) = negb b)
                   (Api.PullRequests out).
Proof.
  eexists _, _. split; [vm_compute; reflexivity|]. split; [reflexivity|].
  eapply (list_route_result 3 demoClient demoRepo
            (demoFilters "open" "" (Some true)) 10);
    [reflexivity | vm_compute; reflexivity].
Defined.

(** X14: [searchPullRequests] never hands an error to its caller: it panics
    exactly when a request failed, and a result it returns has
    [SearchCapped] set exactly when [limit > 1000]. *)
Theorem search_route_result {H C StringSet : Type}
    `{!imports H C StringSet}
    `{!graphQLClient C listResponse} `{!graphQLClient C searchResponse}
    fuel (httpClient : H) repo filters limit o tr :
  Cmd.searchPullRequests fuel httpClient repo filters limit = (o, tr) →
  (∀ res e, o ≠ Returned res (Some e))
  ∧ (o = Panicked ↔ Exists (λ x, is_Some (errorOf x)) tr)
  ∧ (∀ out err, o = Returned (Some out) err →
       Api.SearchCapped out = (1000 <? limit)).
Proof.
  unfold Cmd.searchPullRequests. set (r := searchRequester.mk _ _ _ _).
  set (status := AutoMergeStatus _).
  pose proof (proj2 (graphql_requesters_never_panic fuel
                       (listRequester.mk (searchRequester.client r) "" ∅ "")
                       r limit status)) as Hnp.
  unfold searchPullRequests.
  destruct (fetchPullRequests fuel r limit status) as [o0 tr0] eqn:Hrun.
  simpl in *. intros [= <- <-].
  pose proof (fetchLoop_failed _ _ _ _ _ _ _ _ _ Hrun) as Hfail.
  pose proof (fetchLoop_outcome _ _ _ _ _ _ _ _ _ Hrun) as [_ Hshape].
  destruct o0 as [[out|] [e|]| |]; try done.
  - split; [done|]. split; [|by intros out' err [= <- <-]].
    split; [done|]. intros Hex. apply Hfail in Hex as (? & ? & ?). done.
  - split; [done|]. split; [|done].
    split; [|done]. intros _. apply Hfail. by eauto.
  - split; [done|]. split; [|done].
    split; [done|]. intros Hex. apply Hfail in Hex as (? & ? & ?). done.
Qed.

Lemma search_route_result_witness :
  ∃ o tr,
    Cmd.searchPullRequests 3 (take 1 demoClient) demoRepo
      (demoFilters "open" "octocat" None) 10 = (o, tr)
    ∧ o = Panicked
    ∧ (∀ res e, o ≠ Returned res (Some e))
    ∧ (o = Panicked ↔ Exists (λ x, is_Some (errorOf x)) tr)
    ∧ (∀ out err, o = Returned (Some out) err →
         Api.SearchCapped out = (1000 <? 10)).
Proof.
  eexists _, _. split; [vm_compute; reflexivity|]. split; [reflexivity|].
  eapply (search_route_result 3 (take 1 demoClient) demoRepo
            (demoFilters "open" "octocat" None) 10).
  vm_compute; reflexivity.
Defined.
